(** * renogymodbus: the Renogy charge-controller register map

    A shallow embedding of [src/renogymodbus/charge_controller.py].

    Python integers are [Z]; [&] is [Z.land] and [>>] is [Z.shiftr], which
    agree with Python on every integer.  A [bytearray] is a list of
    integers in [0, 256) whose [append] checks the range, a [str] is the
    list of its code points, and a raised exception is the [Err] branch of
    [Result].

    Every getter of the class talks to the device only through
    [self.retriable_read_register], which lives in
    [renogymodbus/retriable_instrument.py].  A getter is therefore a tree of
    calls to that primitive ([Prog]); [run] executes such a tree against any
    implementation of the primitive. *)

From Stdlib Require Import ZArith List String Ascii Bool Lia.
Import ListNotations.

Local Open Scope string_scope.
Local Open Scope list_scope.
Local Open Scope Z_scope.

(* ================================================================== *)
(** ** Python values and exceptions *)

Module Py.

(** The three ways a single exchange on the serial link can fail. *)
Inductive TransportErrorKind : Type :=
| Timeout
| ShortRead
| PortError.

(** Exceptions that can leave a getter: the error taxonomy of the register
    client, and the two built-in exceptions the byte handling can raise. *)
Inductive Exception : Type :=
| EncodingError
| TransportError (kind : TransportErrorKind)
| FrameError (reason : string)
| DeviceExceptionError (code : Z)
| UnicodeDecodeError
| ValueError.

Inductive Result (A : Type) : Type :=
| OK (a : A)
| Err (e : Exception).

Arguments OK {A} a.
Arguments Err {A} e.

(** [range(lo, hi)] *)
Definition range (lo hi : Z) : list Z :=
  map (fun i => lo + Z.of_nat i) (seq 0 (Z.to_nat (hi - lo))).

(** A [str] is its sequence of Unicode code points. *)
Abbreviation str := (list Z) (only parsing).

Fixpoint str_of_string (s : string) : str :=
  match s with
  | EmptyString => []
  | String c s' => Z.of_N (N_of_ascii c) :: str_of_string s'
  end.

(** A [bytearray]: integers in [0, 256). *)
Abbreviation bytearray := (list Z) (only parsing).

Definition is_byte (x : Z) : bool := (0 <=? x) && (x <? 256).

(** [bytearray.append(x)] raises [ValueError] unless [0 <= x < 256]. *)
Definition bytearray_append (output : bytearray) (x : Z) : Result bytearray :=
  if is_byte x then OK (output ++ [x]) else Err ValueError.

(** *** Strict UTF-8 decoding

    [bytes.decode(encoding='utf-8')] with the default [errors='strict']:
    the well-formed byte sequences of the Unicode standard (no overlong
    forms, no surrogates, nothing above U+10FFFF); anything else raises
    [UnicodeDecodeError]. *)

Definition in_range (lo hi b : Z) : bool := (lo <=? b) && (b <=? hi).

Definition is_continuation (b : Z) : bool := in_range 0x80 0xBF b.

Definition payload (b : Z) : Z := Z.land b 0x3F.

Fixpoint utf8_decode (bs : list Z) : option str :=
  match bs with
  | [] => Some []
  | b0 :: r0 =>
    if in_range 0x00 0x7F b0 then
      option_map (cons b0) (utf8_decode r0)
    else if in_range 0xC2 0xDF b0 then
      match r0 with
      | b1 :: r1 =>
        if is_continuation b1 then
          option_map (cons (Z.shiftl (Z.land b0 0x1F) 6 + payload b1))
                     (utf8_decode r1)
        else None
      | _ => None
      end
    else if in_range 0xE0 0xEF b0 then
      match r0 with
      | b1 :: b2 :: r2 =>
        if in_range (if b0 =? 0xE0 then 0xA0 else 0x80)
                    (if b0 =? 0xED then 0x9F else 0xBF) b1
           && is_continuation b2 then
          option_map (cons (Z.shiftl (Z.land b0 0x0F) 12
                            + Z.shiftl (payload b1) 6 + payload b2))
                     (utf8_decode r2)
        else None
      | _ => None
      end
    else if in_range 0xF0 0xF4 b0 then
      match r0 with
      | b1 :: b2 :: b3 :: r3 =>
        if in_range (if b0 =? 0xF0 then 0x90 else 0x80)
                    (if b0 =? 0xF4 then 0x8F else 0xBF) b1
           && is_continuation b2 && is_continuation b3 then
          option_map (cons (Z.shiftl (Z.land b0 0x07) 18
                            + Z.shiftl (payload b1) 12
                            + Z.shiftl (payload b2) 6 + payload b3))
                     (utf8_decode r3)
        else None
      | _ => None
      end
    else None
  end.

(** [output.decode(encoding='utf-8')] *)
Definition bytearray_decode (output : bytearray) : Result str :=
  match utf8_decode output with
  | Some s => OK s
  | None => Err UnicodeDecodeError
  end.

End Py.

Import Py.

(* ================================================================== *)
(** ** Programs over the raw-read primitive *)

(** A computation whose only effect is a call
    [self.retriable_read_register(registeraddress, number_of_decimals,
    functioncode, signed)]; the continuation receives the integer the call
    returns.  An exception raised by the call ends the computation, which
    is the business of [run] below. *)
Inductive Prog (A : Type) : Type :=
| Return (a : A)
| Raise (e : Exception)
| ReadRegister (registeraddress number_of_decimals functioncode : Z)
               (signed : bool) (k : Z -> Prog A).

Arguments Return {A} a.
Arguments Raise {A} e.
Arguments ReadRegister {A} registeraddress number_of_decimals functioncode
  signed k.

Fixpoint bind {A B : Type} (p : Prog A) (f : A -> Prog B) : Prog B :=
  match p with
  | Return a => f a
  | Raise e => Raise e
  | ReadRegister a d fc sg k => ReadRegister a d fc sg (fun w => bind (k w) f)
  end.

Declare Scope prog_scope.
Delimit Scope prog_scope with prog.
Notation "x <- p ;; q" := (bind p (fun x => q))
  (at level 61, p at next level, right associativity) : prog_scope.
Local Open Scope prog_scope.

Definition retriable_read_register
    (registeraddress number_of_decimals functioncode : Z) (signed : bool)
  : Prog Z :=
  ReadRegister registeraddress number_of_decimals functioncode signed Return.

(** A pure step that may raise. *)
Definition lift {A : Type} (r : Result A) : Prog A :=
  match r with
  | OK a => Return a
  | Err e => Raise e
  end.

(** [for x in xs: acc = body(x, acc)] *)
Fixpoint for_each {A : Type} (xs : list Z) (acc : A)
    (body : Z -> A -> Prog A) : Prog A :=
  match xs with
  | [] => Return acc
  | x :: xs' => acc' <- body x acc ;; for_each xs' acc' body
  end.

(** An implementation of the primitive over a state [St]: the integer it
    returns or the exception it raises, and the state it leaves. *)
Definition Handler (St : Type) : Type :=
  Z -> Z -> Z -> bool -> St -> Result Z * St.

Fixpoint run {St A : Type} (h : Handler St) (p : Prog A) (s : St)
  : Result A * St :=
  match p with
  | Return a => (OK a, s)
  | Raise e => (Err e, s)
  | ReadRegister a d fc sg k =>
    match h a d fc sg s with
    | (OK w, s') => run h (k w) s'
    | (Err e, s') => (Err e, s')
    end
  end.

(** The calls a program can make all satisfy [P]. *)
Inductive all_calls {A : Type} (P : Z -> Z -> Z -> bool -> Prop)
  : Prog A -> Prop :=
| all_calls_Return a : all_calls P (Return a)
| all_calls_Raise e : all_calls P (Raise e)
| all_calls_ReadRegister a d fc sg k :
    P a d fc sg ->
    (forall w, all_calls P (k w)) ->
    all_calls P (ReadRegister a d fc sg k).

(** Reading the registers [regs] one after the other, each with no decimals,
    function code 3 and unsigned: the words obtained, in order. *)
Fixpoint read_words {St : Type} (h : Handler St) (regs : list Z) (s : St)
  : Result (list Z) * St :=
  match regs with
  | [] => (OK [], s)
  | reg :: regs' =>
    match h reg 0 3 false s with
    | (OK w, s1) =>
      match read_words h regs' s1 with
      | (OK ws, s2) => (OK (w :: ws), s2)
      | (Err e, s2) => (Err e, s2)
      end
    | (Err e, s1) => (Err e, s1)
    end
  end.

(* ================================================================== *)
(** ** [class RenogyChargeController(RetriableInstrument)] *)

Module RenogyChargeController.

(** *** The attributes [__init__] sets *)

(** [serial.PARITY_*] *)
Inductive Parity : Type :=
| PARITY_NONE | PARITY_EVEN | PARITY_ODD | PARITY_MARK | PARITY_SPACE.

(** [minimalmodbus.MODE_*] *)
Inductive Mode : Type :=
| MODE_RTU | MODE_ASCII.

(** [self.serial] *)
Record Serial : Type := mkSerial {
  port : string;
  baudrate : Z;
  bytesize : Z;
  parity : Parity;
  stopbits : Z;
  timeout : Z  (* seconds *)
}.

Record Instrument : Type := mkInstrument {
  serial : Serial;
  address : Z;
  mode : Mode;
  clear_buffers_before_each_transaction : bool
}.

Section Init.

(** [RetriableInstrument.__init__], inherited from
    [minimalmodbus.Instrument]: whatever object it builds for the port name
    and the slave address. *)
Variable super_init : string -> Z -> Instrument.

Definition init (portname : string) (slaveaddress : Z) : Instrument :=
  let self := super_init portname slaveaddress in
  let ser := serial self in
  let ser := mkSerial (port ser) 9600 (bytesize ser) (parity ser)
                      (stopbits ser) (timeout ser) in
  let ser := mkSerial (port ser) (baudrate ser) 8 (parity ser)
                      (stopbits ser) (timeout ser) in
  let ser := mkSerial (port ser) (baudrate ser) (bytesize ser) PARITY_NONE
                      (stopbits ser) (timeout ser) in
  let ser := mkSerial (port ser) (baudrate ser) (bytesize ser) (parity ser)
                      1 (timeout ser) in
  let ser := mkSerial (port ser) (baudrate ser) (bytesize ser) (parity ser)
                      (stopbits ser) 1 in
  let self := mkInstrument ser (address self) (mode self)
                (clear_buffers_before_each_transaction self) in
  let self := mkInstrument (serial self) (address self) MODE_RTU
                (clear_buffers_before_each_transaction self) in
  mkInstrument (serial self) (address self) (mode self) true.

End Init.

(** *** The getters *)

Definition get_controller_voltage_rating : Prog Z :=
  w <- retriable_read_register 0x0A 0 3 false ;;
  Return (Z.shiftr (Z.land w 0xFF00) 8).

Definition get_controller_current_rating : Prog Z :=
  w <- retriable_read_register 0x0A 0 3 false ;;
  Return (Z.land w 0x00FF).

Definition get_controller_discharge_rating : Prog Z :=
  w <- retriable_read_register 0x0B 0 3 false ;;
  Return (Z.shiftr (Z.land w 0xFF00) 8).

Definition get_controller_type : Prog Z :=
  w <- retriable_read_register 0x0B 0 3 false ;;
  Return (Z.land w 0x00FF).

Definition get_controller_model : Prog str :=
  output <- for_each (range 0x0C (0x13 + 1)) [] (fun reg output =>
    word <- retriable_read_register reg 0 3 false ;;
    output <- lift (bytearray_append output (Z.shiftr (Z.land word 0xFF00) 8)) ;;
    lift (bytearray_append output (Z.land word 0x00FF))) ;;
  lift (bytearray_decode output).

Definition get_controller_software_version : Prog (Z * Z) :=
  a <- retriable_read_register 0x14 0 3 false ;;
  b <- retriable_read_register 0x15 0 3 false ;;
  Return (a, b).

Definition get_controller_hardware_version : Prog (Z * Z) :=
  a <- retriable_read_register 0x16 0 3 false ;;
  b <- retriable_read_register 0x17 0 3 false ;;
  Return (a, b).

Definition get_controller_serial_number : Prog bytearray :=
  for_each (range 0x18 (0x19 + 1)) [] (fun reg output =>
    word <- retriable_read_register reg 0 3 false ;;
    output <- lift (bytearray_append output (Z.shiftr (Z.land word 0xFF00) 8)) ;;
    lift (bytearray_append output (Z.land word 0x00FF))).

Definition get_controller_modbus_address : Prog Z :=
  retriable_read_register 0x1A 0 3 false.

Definition get_solar_voltage : Prog Z :=
  retriable_read_register 0x0107 1 3 false.

Definition get_solar_current : Prog Z :=
  retriable_read_register 0x0108 2 3 false.

Definition get_solar_power : Prog Z :=
  retriable_read_register 0x0109 0 3 false.

Definition get_load_voltage : Prog Z :=
  retriable_read_register 0x0104 1 3 false.

Definition get_load_current : Prog Z :=
  retriable_read_register 0x0105 2 3 false.

Definition get_load_power : Prog Z :=
  retriable_read_register 0x0106 0 3 false.

Definition get_battery_voltage : Prog Z :=
  retriable_read_register 0x0101 1 3 false.

Definition get_battery_current : Prog Z :=
  retriable_read_register 0x102 2 3 false.

Definition get_battery_state_of_charge : Prog Z :=
  retriable_read_register 0x0100 0 3 false.

Definition get_battery_temperature : Prog Z :=
  register_value <- retriable_read_register 0x0103 0 3 false ;;
  let battery_temperature := Z.land register_value 0x007F (* 0b0000000001111111 *) in
  let battery_temperature_sign :=
    Z.shiftr (Z.land register_value 0x0080 (* 0b0000000010000000 *)) 7 in
  let battery_temperature :=
    if battery_temperature_sign =? 1
    then - battery_temperature else battery_temperature in
  Return battery_temperature.

Definition get_controller_temperature : Prog Z :=
  register_value <- retriable_read_register 0x0103 0 3 false ;;
  let controller_temperature :=
    Z.shiftr (Z.land register_value 0x7F00 (* 0b0111111100000000 *)) 8 in
  let controller_temperature_sign :=
    Z.shiftr (Z.land register_value 0x8000 (* 0b1000000000000000 *)) 15 in
  let controller_temperature :=
    if controller_temperature_sign =? 1
    then - controller_temperature else controller_temperature in
  Return controller_temperature.

Definition get_maximum_solar_power_today : Prog Z :=
  retriable_read_register 0x010F 0 3 false.

Definition get_minimum_solar_power_today : Prog Z :=
  retriable_read_register 0x0110 0 3 false.

Definition get_maximum_battery_voltage_today : Prog Z :=
  retriable_read_register 0x010C 1 3 false.

Definition get_minimum_battery_voltage_today : Prog Z :=
  retriable_read_register 0x010B 1 3 false.

Definition get_maximum_charge_current_today : Prog Z :=
  retriable_read_register 0x010D 0 3 false.

Definition get_maximum_load_current_today : Prog Z :=
  retriable_read_register 0x010E 0 3 false.

Definition get_charge_today : Prog Z :=
  retriable_read_register 0x111 0 3 false.

Definition get_discharge_today : Prog Z :=
  retriable_read_register 0x112 0 3 false.

Definition get_charge_energy_today : Prog Z :=
  retriable_read_register 0x113 0 3 false.

Definition get_discharge_energy_today : Prog Z :=
  retriable_read_register 0x114 0 3 false.

Definition get_controller_uptime : Prog Z :=
  retriable_read_register 0x115 0 3 false.

Definition get_total_battery_overcharges : Prog Z :=
  retriable_read_register 0x116 0 3 false.

Definition get_total_battery_full_charges : Prog Z :=
  retriable_read_register 0x117 0 3 false.

End RenogyChargeController.

Import RenogyChargeController.

(** The public getters of the class, by name. *)
Definition getters : list (string * {A : Type & Prog A}) :=
  let entry (name : string) {A : Type} (g : Prog A) := (name, existT Prog A g)
  in
  [ entry "get_controller_voltage_rating" get_controller_voltage_rating;
    entry "get_controller_current_rating" get_controller_current_rating;
    entry "get_controller_discharge_rating" get_controller_discharge_rating;
    entry "get_controller_type" get_controller_type;
    entry "get_controller_model" get_controller_model;
    entry "get_controller_software_version" get_controller_software_version;
    entry "get_controller_hardware_version" get_controller_hardware_version;
    entry "get_controller_serial_number" get_controller_serial_number;
    entry "get_controller_modbus_address" get_controller_modbus_address;
    entry "get_solar_voltage" get_solar_voltage;
    entry "get_solar_current" get_solar_current;
    entry "get_solar_power" get_solar_power;
    entry "get_load_voltage" get_load_voltage;
    entry "get_load_current" get_load_current;
    entry "get_load_power" get_load_power;
    entry "get_battery_voltage" get_battery_voltage;
    entry "get_battery_current" get_battery_current;
    entry "get_battery_state_of_charge" get_battery_state_of_charge;
    entry "get_battery_temperature" get_battery_temperature;
    entry "get_controller_temperature" get_controller_temperature;
    entry "get_maximum_solar_power_today" get_maximum_solar_power_today;
    entry "get_minimum_solar_power_today" get_minimum_solar_power_today;
    entry "get_maximum_battery_voltage_today"
          get_maximum_battery_voltage_today;
    entry "get_minimum_battery_voltage_today"
          get_minimum_battery_voltage_today;
    entry "get_maximum_charge_current_today" get_maximum_charge_current_today;
    entry "get_maximum_load_current_today" get_maximum_load_current_today;
    entry "get_charge_today" get_charge_today;
    entry "get_discharge_today" get_discharge_today;
    entry "get_charge_energy_today" get_charge_energy_today;
    entry "get_discharge_energy_today" get_discharge_energy_today;
    entry "get_controller_uptime" get_controller_uptime;
    entry "get_total_battery_overcharges" get_total_battery_overcharges;
    entry "get_total_battery_full_charges" get_total_battery_full_charges ].

(** The scalar getters that pass a nonzero [number_of_decimals], with the
    register each reads and the hint it passes. *)
Definition hinted_getters : list (Prog Z * Z * Z) :=
  [ (get_solar_voltage, 0x0107, 1);
    (get_solar_current, 0x0108, 2);
    (get_load_voltage, 0x0104, 1);
    (get_load_current, 0x0105, 2);
    (get_battery_voltage, 0x0101, 1);
    (get_battery_current, 0x102, 2);
    (get_maximum_battery_voltage_today, 0x010C, 1);
    (get_minimum_battery_voltage_today, 0x010B, 1) ].

(** The settings the constructor fixes: baud rate, data bits, parity, stop
    bits, read timeout, mode, and the flush-before-transaction flag. *)
Definition settings (self : Instrument)
  : Z * Z * Parity * Z * Z * Mode * bool :=
  (baudrate (serial self), bytesize (serial self), parity (serial self),
   stopbits (serial self), timeout (serial self), mode self,
   clear_buffers_before_each_transaction self).

(** What [__init__] leaves in them. *)
Definition renogy_settings : Z * Z * Parity * Z * Z * Mode * bool :=
  (9600, 8, PARITY_NONE, 1, 1, MODE_RTU, true).

(** An implementation of the primitive that leaves the settings alone. *)
Definition keeps_settings {W : Type} (h : Handler (Instrument * W)) : Prop :=
  forall a d fc sg st,
    settings (fst (snd (h a d fc sg st))) = settings (fst st).

(** The discipline of the register map: function code 3, unsigned. *)
Definition holding_unsigned (_ _ functioncode : Z) (signed : bool) : Prop :=
  functioncode = 3 /\ signed = false.

(** The body of the loops of [get_controller_model] and
    [get_controller_serial_number]. *)
Definition append_register (reg : Z) (output : bytearray) : Prog bytearray :=
  word <- retriable_read_register reg 0 3 false ;;
  output <- lift (bytearray_append output (Z.shiftr (Z.land word 0xFF00) 8)) ;;
  lift (bytearray_append output (Z.land word 0x00FF)).

(** The two bytes the loops append for a word. *)
Definition masked_bytes (word : Z) : list Z :=
  [Z.shiftr (Z.land word 0xFF00) 8; Z.land word 0x00FF].

(** *** The decoding rules in the specification's words *)

Definition is_word16 (w : Z) : Prop := 0 <= w < 65536.

(** High byte, then low byte, of a big-endian 16-bit word. *)
Definition high_low_bytes (w : Z) : list Z := [w / 256; w mod 256].

(** Multi-register string: the bytes of the words in register order, read
    as UTF-8. *)
Definition decode_string (ws : list Z) : Result str :=
  bytearray_decode (flat_map high_low_bytes ws).

(** Signed magnitude: sign flag and magnitude. *)
Definition signed_magnitude (sign : bool) (magnitude : Z) : Z :=
  if sign then - magnitude else magnitude.

(* ================================================================== *)
(** ** [RetriableInstrument.retriable_read_register] *)

Module RetriableInstrument.

(** [renogymodbus/retriable_instrument.py], the module that defines
    [retriable_read_register], is not among the sources.  This module is the
    Retriable Register Client of the specification (sections 3, 4.3 and 7):
    the request, the retry policy, the transport session it wraps, and the
    attempt loop. *)

(** Modelled from the spec: the RegisterRequest of section 3, which
    [retriable_instrument.py] would build for each call. *)
Record RegisterRequest : Type := mkRequest {
  register_address : Z;
  function_code : Z;
  quantity : Z
}.

(** Modelled from the spec: the Transport Session of section 4.2 (together
    with the Frame Codec) as the missing client sees it: one exchange per
    call, giving the words of the response or the error
    of that attempt; discarding pending input; waiting. *)
Record TransportSession : Type := mkSession {
  session : Type;
  exchange : RegisterRequest -> session -> Result (list Z) * session;
  discard_input : session -> session;
  wait : Z -> session -> session
}.

(** Modelled from the spec: the RetryPolicy of section 3 that the missing
    client is configured with; the retriable kinds are [is_retriable]. *)
Record RetryPolicy : Type := mkPolicy {
  max_attempts : nat;
  delay : Z;
  retriable_device_exception : Z -> bool
}.

(** Modelled from the spec: the error classification of the missing client
    (section 7): transport and frame errors are always eligible for a retry,
    an encoding error never is, and a device exception is when the policy
    says so for its code. *)
Definition is_retriable (policy : RetryPolicy) (e : Exception) : bool :=
  match e with
  | TransportError _ => true
  | FrameError _ => true
  | DeviceExceptionError code => retriable_device_exception policy code
  | EncodingError => false
  | UnicodeDecodeError => false
  | ValueError => false
  end.

(** Modelled from the spec: the integer the missing client returns, the
    big-endian concatenation of the words read (section 4.3, step 2b). *)
Definition words_to_integer (words : list Z) : Z :=
  fold_left (fun acc w => acc * 65536 + w) words 0.

Section Client.

Variable T : TransportSession.
Variable policy : RetryPolicy.

(** Modelled from the spec: one full request/response exchange of the
    missing client (section 4.3, step 2a); the codec refuses a quantity
    outside 1..125 before anything is sent (section 4.1). *)
Definition attempt (req : RegisterRequest) (s : session T)
  : Result (list Z) * session T :=
  if (1 <=? quantity req) && (quantity req <=? 125)
  then exchange T req s
  else (Err EncodingError, s).

(** Modelled from the spec: the attempt loop of the missing client (section
    4.3, step 2).  [retries] is the number of attempts that remain after the
    one about to be made.  Success returns at once; a retriable failure with
    attempts remaining discards pending input, waits the delay and tries
    again; any other failure is raised. *)
Fixpoint attempt_loop (retries : nat) (req : RegisterRequest) (s : session T)
  : Result Z * session T :=
  match attempt req s with
  | (OK words, s') => (OK (words_to_integer words), s')
  | (Err e, s') =>
    if is_retriable policy e then
      match retries with
      | O => (Err e, s')
      | S retries' =>
        attempt_loop retries' req (wait T (delay policy) (discard_input T s'))
      end
    else (Err e, s')
  end.

(** Modelled from the spec: [retriable_read_register] of the missing
    [retriable_instrument.py], the [read_register] of section 4.3: a request
    for one register, then the attempt loop with the policy's budget;
    [number_of_decimals] and [signed] are accepted and not applied (step
    3). *)
Definition retriable_read_register
    (registeraddress number_of_decimals functioncode : Z) (signed : bool)
  : session T -> Result Z * session T :=
  attempt_loop (Nat.pred (max_attempts policy))
               (mkRequest registeraddress functioncode 1).

End Client.

(** A session that counts the exchanges made on it. *)
Definition counting (T : TransportSession) : TransportSession :=
  mkSession (session T * nat)
    (fun req sn =>
       let (r, s') := exchange T req (fst sn) in (r, (s', S (snd sn))))
    (fun sn => (discard_input T (fst sn), snd sn))
    (fun d sn => (wait T d (fst sn), snd sn)).

(** A session on which every exchange times out. *)
Definition always_timeout (T : TransportSession) : Prop :=
  forall req s, fst (exchange T req s) = Err (TransportError Timeout).

(** The client as the primitive of an instrument: the object's attributes
    travel along with the session. *)
Definition instrument_handler (T : TransportSession) (policy : RetryPolicy)
  : Handler (Instrument * session T) :=
  fun a d fc sg st =>
    let (r, s') := retriable_read_register T policy a d fc sg (snd st) in
    (r, (fst st, s')).

End RetriableInstrument.

(* ================================================================== *)
(** ** Bench devices *)

Module Bench.

Import RetriableInstrument.

(** A link with nothing at the other end. *)
Definition dead_link : TransportSession :=
  mkSession unit (fun _ s => (Err (TransportError Timeout), s))
            (fun s => s) (fun _ s => s).

(** Register contents of a controller on the bench. *)
Definition registers (addr : Z) : Z :=
  if addr =? 0x0100 then 42
  else if addr =? 0x0103 then 0x8519
  else if addr =? 0x0107 then 185
  else if addr =? 0x0108 then 312
  else if addr =? 0x14 then 0x0001
  else if addr =? 0x15 then 0x0203
  else if addr =? 0x16 then 0x0004
  else if addr =? 0x17 then 0x0506
  else if addr =? 0x18 then 0x1234
  else if addr =? 0x19 then 0xABCD
  else if addr =? 0x0C then 0x524E
  else if addr =? 0x0D then 0x472D
  else if addr =? 0x0E then 0x4354
  else if addr =? 0x0F then 0x524C
  else if addr =? 0x10 then 0x2D52
  else if addr =? 0x11 then 0x5652
  else if addr =? 0x12 then 0x3430
  else if addr =? 0x13 then 0x2020
  else 0.

(** It answers every well-formed read with the addressed register. *)
Definition controller : TransportSession :=
  mkSession unit (fun req s => (OK [registers (register_address req)], s))
            (fun s => s) (fun _ s => s).

(** A device whose registers are all ones. *)
Definition erased : TransportSession :=
  mkSession unit (fun _ s => (OK [0xFFFF], s)) (fun s => s) (fun _ s => s).

(** The primitive of a device whose every register holds [w]. *)
Definition register_holds (w : Z) : Handler unit :=
  fun _ _ _ _ s => (OK w, s).

Definition three_attempts : RetryPolicy := mkPolicy 3 200 (fun _ => false).

(** A freshly built base instrument, before the class sets its fields. *)
Definition base_instrument (portname : string) (slaveaddress : Z)
  : Instrument :=
  mkInstrument (mkSerial portname 19200 8 PARITY_NONE 1 0) slaveaddress
               MODE_RTU false.

(** The primitive of the controller on the bench. *)
Definition primitive : Handler unit :=
  retriable_read_register controller three_attempts.

End Bench.

(* ================================================================== *)
(** ** Observing the getters *)

Module Observe.

(** What a getter returns when every register it reads holds [w]. *)
Definition reading {A : Type} (g : Prog A) (w : Z) : Result A :=
  fst (run (Bench.register_holds w) g tt).

(** An implementation of the primitive that answers every call. *)
Definition answers {St : Type} (h : Handler St) : Prop :=
  forall a d fc sg s, exists w s', h a d fc sg s = (OK w, s').

(** An implementation of the primitive that raises [e] at every call. *)
Definition always_raises {St : Type} (h : Handler St) (e : Exception)
  : Prop :=
  forall a d fc sg s, fst (h a d fc sg s) = Err e.

(** The same primitive, counting the calls made to it. *)
Definition counted {St : Type} (h : Handler St) : Handler (St * nat) :=
  fun a d fc sg sn =>
    let (r, s') := h a d fc sg (fst sn) in (r, (s', S (snd sn))).

(** The program begins with a call of the primitive. *)
Definition makes_a_call {A : Type} (p : Prog A) : bool :=
  match p with
  | ReadRegister _ _ _ _ _ => true
  | _ => false
  end.

(** Every exception the program itself can raise satisfies [P]. *)
Inductive raises_only {A : Type} (P : Exception -> Prop) : Prog A -> Prop :=
| raises_only_Return a : raises_only P (Return a)
| raises_only_Raise e : P e -> raises_only P (Raise e)
| raises_only_ReadRegister a d fc sg k :
    (forall w, raises_only P (k w)) ->
    raises_only P (ReadRegister a d fc sg k).

(** The program makes [n] calls before it ends, whatever they return. *)
Inductive makes_calls {A : Type} : nat -> Prog A -> Prop :=
| makes_calls_Return a : makes_calls 0 (Return a)
| makes_calls_Raise e : makes_calls 0 (Raise e)
| makes_calls_ReadRegister n a d fc sg k :
    (forall w, makes_calls n (k w)) ->
    makes_calls (S n) (ReadRegister a d fc sg k).

(** The number of registers a getter reads. *)
Definition reads_per_call (name : string) : nat :=
  if String.eqb name "get_controller_model" then 8
  else if String.eqb name "get_controller_software_version" then 2
  else if String.eqb name "get_controller_hardware_version" then 2
  else if String.eqb name "get_controller_serial_number" then 2
  else 1.

(** The byte that holds a temperature between -127 and 127 as a sign flag
    over seven bits of magnitude. *)
Definition signed_magnitude_byte (t : Z) : Z :=
  if t <? 0 then 0x80 + - t else t.

(** The word of register 0x0103 for a controller and a battery
    temperature. *)
Definition temperature_word (controller battery : Z) : Z :=
  256 * signed_magnitude_byte controller + signed_magnitude_byte battery.

(** A 16-bit word whose two bytes are ASCII. *)
Definition ascii_word (w : Z) : Prop :=
  0 <= w < 0x8000 /\ w mod 256 < 128.

(** A controller whose register [bad] cannot be read: the read raises [e].
    The state counts the reads. *)
Definition fails_at (bad : Z) (e : Exception) : Handler nat :=
  fun a _ _ _ n =>
    (if a =? bad then Err e else OK (Bench.registers a), S n).

(** A controller that raises [e] at every read. *)
Definition unplugged (e : Exception) : Handler unit :=
  fun _ _ _ _ s => (Err e, s).

End Observe.

(* ================================================================== *)
(** ** Bit fields *)

Section BitFields.

Lemma land_1_mod2 (x : Z) : Z.land x 1 = x mod 2.
Proof.
  change 1 with (Z.ones 1) at 1.
  rewrite Z.land_ones by lia.
  reflexivity.
Qed.

(** Masking one bit and shifting it down tests that bit. *)
Lemma flag_testbit (w n : Z) :
  0 <= n ->
  (Z.shiftr (Z.land w (2 ^ n)) n =? 1) = Z.testbit w n.
Proof.
  intros Hn.
  rewrite Z.shiftr_land.
  replace (Z.shiftr (2 ^ n) n) with 1.
  - rewrite land_1_mod2.
    replace (Z.testbit w n) with (Z.testbit (Z.shiftr w n) 0).
    + symmetry. apply Z.bit0_eqb.
    + rewrite Z.shiftr_spec by lia. reflexivity.
  - rewrite Z.shiftr_div_pow2 by assumption.
    symmetry. apply Z.div_same.
    apply Z.pow_nonzero; lia.
Qed.

Lemma masked_high_byte (w : Z) :
  Z.shiftr (Z.land w 0xFF00) 8 = Z.land (Z.shiftr w 8) 0xFF.
Proof. rewrite Z.shiftr_land. reflexivity. Qed.

Lemma masked_high_magnitude (w : Z) :
  Z.shiftr (Z.land w 0x7F00) 8 = Z.land (Z.shiftr w 8) 0x7F.
Proof. rewrite Z.shiftr_land. reflexivity. Qed.

Lemma land_FF_range (x : Z) : 0 <= Z.land x 0xFF < 256.
Proof.
  change 0xFF with (Z.ones 8).
  rewrite Z.land_ones by lia.
  apply Z.mod_pos_bound. reflexivity.
Qed.

Lemma is_byte_low (w : Z) : is_byte (Z.land w 0x00FF) = true.
Proof.
  unfold is_byte. pose proof (land_FF_range w).
  apply andb_true_intro; split; [apply Z.leb_le | apply Z.ltb_lt]; lia.
Qed.

Lemma is_byte_high (w : Z) : is_byte (Z.shiftr (Z.land w 0xFF00) 8) = true.
Proof.
  rewrite masked_high_byte.
  unfold is_byte. pose proof (land_FF_range (Z.shiftr w 8)).
  apply andb_true_intro; split; [apply Z.leb_le | apply Z.ltb_lt]; lia.
Qed.

(** On a 16-bit word the masks give the high byte and the low byte. *)
Lemma masked_bytes_word16 (w : Z) :
  is_word16 w -> masked_bytes w = high_low_bytes w.
Proof.
  intros [Hlo Hhi]. unfold masked_bytes, high_low_bytes.
  rewrite masked_high_byte.
  change 0xFF with (Z.ones 8). change 0x00FF with (Z.ones 8).
  rewrite !Z.land_ones by lia.
  rewrite Z.shiftr_div_pow2 by lia.
  change (2 ^ 8) with 256.
  rewrite (Z.mod_small (w / 256)); [reflexivity |].
  split.
  - apply Z.div_pos; lia.
  - apply Z.div_lt_upper_bound; lia.
Qed.

End BitFields.

(* ================================================================== *)
(** ** Running programs *)

Section Running.

Context {St : Type} (h : Handler St).

Lemma run_bind {A B : Type} (p : Prog A) (f : A -> Prog B) (s : St) :
  run h (bind p f) s =
  match run h p s with
  | (OK a, s') => run h (f a) s'
  | (Err e, s') => (Err e, s')
  end.
Proof.
  revert s. induction p as [a | e | a d fc sg k IH]; intros s; simpl.
  - reflexivity.
  - reflexivity.
  - destruct (h a d fc sg s) as [[w | e] s']; [apply IH | reflexivity].
Qed.

Lemma run_read (a d fc : Z) (sg : bool) (s : St) :
  run h (retriable_read_register a d fc sg) s = h a d fc sg s.
Proof.
  simpl. destruct (h a d fc sg s) as [[w | e] s']; reflexivity.
Qed.

(** One turn of the byte-assembling loop, when the read succeeds. *)
Lemma run_append_register (reg w : Z) (output : bytearray) (s s' : St) :
  h reg 0 3 false s = (OK w, s') ->
  run h (append_register reg output) s = (OK (output ++ masked_bytes w), s').
Proof.
  intros Hread. unfold append_register.
  rewrite run_bind, run_read, Hread.
  unfold bytearray_append.
  rewrite is_byte_high. simpl.
  rewrite is_byte_low. simpl.
  rewrite <- app_assoc. reflexivity.
Qed.

(** The loop over any registers: the bytes of the words read, in order,
    after what was already assembled. *)
Lemma run_for_each_append (regs ws : list Z) (output : bytearray) (s s' : St) :
  read_words h regs s = (OK ws, s') ->
  run h (for_each regs output append_register) s
  = (OK (output ++ flat_map masked_bytes ws), s').
Proof.
  revert ws output s.
  induction regs as [| reg regs IH]; intros ws output s Hreads;
    cbn [read_words for_each] in *.
  - injection Hreads as <- <-. rewrite app_nil_r. reflexivity.
  - destruct (h reg 0 3 false s) as [[w | e] s1] eqn:Hread; [| discriminate].
    destruct (read_words h regs s1) as [[ws' | e] s2] eqn:Hrest;
      [| discriminate].
    injection Hreads as <- <-.
    rewrite run_bind, (run_append_register _ _ _ _ _ Hread).
    rewrite (IH _ _ _ Hrest). simpl.
    rewrite <- app_assoc. reflexivity.
Qed.

End Running.

Lemma flat_map_word16 (ws : list Z) :
  Forall is_word16 ws ->
  flat_map masked_bytes ws = flat_map high_low_bytes ws.
Proof.
  induction 1 as [| w ws Hw _ IH]; cbn [flat_map].
  - reflexivity.
  - rewrite IH, (masked_bytes_word16 w Hw). reflexivity.
Qed.

(** ** Call discipline *)

Section Calls.

Context (P : Z -> Z -> Z -> bool -> Prop).

Lemma all_calls_bind {A B : Type} (p : Prog A) (f : A -> Prog B) :
  all_calls P p -> (forall a, all_calls P (f a)) -> all_calls P (bind p f).
Proof.
  intros Hp Hf. induction Hp as [a | e | a d fc sg k Hcall _ IH]; simpl.
  - apply Hf.
  - constructor.
  - constructor; assumption.
Qed.

Lemma all_calls_read (a d fc : Z) (sg : bool) :
  P a d fc sg -> all_calls P (retriable_read_register a d fc sg).
Proof. intros Hcall. constructor; [assumption | intros w; constructor]. Qed.

Lemma all_calls_lift {A : Type} (r : Result A) : all_calls P (lift r).
Proof. destruct r; constructor. Qed.

Lemma all_calls_for_each {A : Type} (xs : list Z) (acc : A)
    (body : Z -> A -> Prog A) :
  (forall x a, all_calls P (body x a)) -> all_calls P (for_each xs acc body).
Proof.
  intros Hbody. revert acc.
  induction xs as [| x xs IH]; intros acc; simpl.
  - constructor.
  - apply all_calls_bind; [apply Hbody | intros acc'; apply IH].
Qed.

End Calls.

(** A program whose calls all satisfy [P] cannot tell two implementations
    of the primitive apart when they agree on the calls satisfying [P]. *)
Lemma run_agree {St A : Type} (P : Z -> Z -> Z -> bool -> Prop)
    (h1 h2 : Handler St) (p : Prog A) :
  all_calls P p ->
  (forall a d fc sg s, P a d fc sg -> h1 a d fc sg s = h2 a d fc sg s) ->
  forall s, run h1 p s = run h2 p s.
Proof.
  intros Hp Hagree.
  induction Hp as [a | e | a d fc sg k Hcall _ IH]; intros s; simpl.
  - reflexivity.
  - reflexivity.
  - rewrite (Hagree _ _ _ _ s Hcall).
    destruct (h2 a d fc sg s) as [[w | e] s']; [apply IH | reflexivity].
Qed.

(* ================================================================== *)
(** ** The retry loop *)

Section RetryLoop.

Import RetriableInstrument.

Variable T : TransportSession.
Variable policy : RetryPolicy.

(** On a session that only times out, the loop uses its whole budget: the
    attempt about to be made and every retry left. *)
Lemma attempt_loop_always_timeout (retries : nat) (a fc : Z) :
  always_timeout T ->
  forall (s : session T) (n : nat),
    let out := attempt_loop (counting T) policy retries (mkRequest a fc 1)
                            (s, n) in
    fst out = Err (TransportError Timeout)
    /\ snd (snd out) = (n + S retries)%nat.
Proof.
  intros Hdead.
  induction retries as [| retries IH]; intros s n;
    cbn [attempt_loop]; unfold attempt; cbn [quantity counting exchange];
    change ((1 <=? 1) && (1 <=? 125)) with true; cbn [fst snd];
    pose proof (Hdead (mkRequest a fc 1) s) as Hx;
    destruct (exchange T (mkRequest a fc 1) s) as [r s1];
    cbn [fst] in Hx; subst r; cbn [is_retriable].
  - cbn [fst snd]. split; [reflexivity | lia].
  - change (wait (counting T) (delay policy)
                 (discard_input (counting T) (s1, S n)))
      with (wait T (delay policy) (discard_input T s1), S n).
    destruct (IH (wait T (delay policy) (discard_input T s1)) (S n))
      as [Hres Hcount].
    split; [exact Hres | rewrite Hcount; lia].
Qed.

(** A successful first exchange is returned at once, as the integer the
    words spell. *)
Lemma attempt_loop_success (retries : nat) (req : RegisterRequest)
    (s s' : session T) (words : list Z) :
  1 <= quantity req <= 125 ->
  exchange T req s = (OK words, s') ->
  attempt_loop T policy retries req s = (OK (words_to_integer words), s').
Proof.
  intros [Hlo Hhi] Hx.
  destruct retries; cbn [attempt_loop]; unfold attempt;
    (replace ((1 <=? quantity req) && (quantity req <=? 125)) with true
      by (symmetry; apply andb_true_intro; split; apply Z.leb_le; lia));
    rewrite Hx; reflexivity.
Qed.

End RetryLoop.

(** C1: on a transport session whose every exchange fails with Timeout, a
    call of the raw-read primitive under a policy of at least one attempt
    makes exactly [max_attempts] exchanges (the session's counter advances
    by that much) and then raises that Timeout; no value is returned. *)
Theorem retry_bound_on_timeouts
    (T : RetriableInstrument.TransportSession)
    (policy : RetriableInstrument.RetryPolicy)
    (registeraddress number_of_decimals functioncode : Z) (signed : bool)
    (s : RetriableInstrument.session T) (n : nat) :
  RetriableInstrument.always_timeout T ->
  (1 <= RetriableInstrument.max_attempts policy)%nat ->
  let out :=
    RetriableInstrument.retriable_read_register
      (RetriableInstrument.counting T) policy
      registeraddress number_of_decimals functioncode signed (s, n) in
  fst out = Err (TransportError Timeout)
  /\ snd (snd out) = (n + RetriableInstrument.max_attempts policy)%nat.
Proof.
  intros Hdead Hpos.
  unfold RetriableInstrument.retriable_read_register.
  destruct (attempt_loop_always_timeout T policy
              (Nat.pred (RetriableInstrument.max_attempts policy))
              registeraddress functioncode Hdead s n) as [Hres Hcount].
  split; [exact Hres |].
  rewrite Hcount. lia.
Qed.

Lemma retry_bound_on_timeouts_witness :
  (RetriableInstrument.always_timeout Bench.dead_link
   /\ (1 <= RetriableInstrument.max_attempts Bench.three_attempts)%nat)
  /\ let out :=
       RetriableInstrument.retriable_read_register
         (RetriableInstrument.counting Bench.dead_link) Bench.three_attempts
         0x0100 0 3 false (tt, 0%nat) in
     fst out = Err (TransportError Timeout) /\ snd (snd out) = 3%nat.
Proof.
  split.
  - split; [intros req s; reflexivity | simpl; lia].
  - apply (retry_bound_on_timeouts Bench.dead_link Bench.three_attempts
             0x0100 0 3 false tt 0%nat).
    + intros req s; reflexivity.
    + simpl; lia.
Defined.

(* ================================================================== *)
(** ** Scalar getters and bit-field getters *)

(** C2: whatever word [w] the read of register 0x0103 returns, the battery
    temperature is the low seven bits negated when bit 7 is set, and the
    controller temperature is bits 8 to 14 negated when bit 15 is set. *)
Theorem temperatures_signed_magnitude
    {St : Type} (h : Handler St) (s s' : St) (w : Z) :
  h 0x0103 0 3 false s = (OK w, s') ->
  run h get_battery_temperature s
  = (OK (signed_magnitude (Z.testbit w 7) (Z.land w 0x7F)), s')
  /\ run h get_controller_temperature s
     = (OK (signed_magnitude (Z.testbit w 15) (Z.land (Z.shiftr w 8) 0x7F)),
        s').
Proof.
  intros Hread.
  unfold get_battery_temperature, get_controller_temperature.
  rewrite !run_bind, !run_read, Hread. cbn [run].
  change 0x0080 with (2 ^ 7). change 0x8000 with (2 ^ 15).
  rewrite !flag_testbit by lia.
  rewrite masked_high_magnitude.
  split; reflexivity.
Qed.

Lemma temperatures_signed_magnitude_witness :
  Bench.primitive 0x0103 0 3 false tt = (OK 0x8519, tt)
  /\ run Bench.primitive get_battery_temperature tt = (OK 25, tt)
  /\ run Bench.primitive get_controller_temperature tt = (OK (-5), tt).
Proof.
  split; [reflexivity |].
  apply (temperatures_signed_magnitude Bench.primitive tt tt 0x8519).
  reflexivity.
Defined.

(** C3, as stated, fails: with 0x8005 in register 0x0103 the controller
    temperature is not -5. *)
Lemma controller_temperature_8005_is_not_minus_5 :
  Bench.register_holds 0x8005 0x0103 0 3 false tt = (OK 0x8005, tt)
  /\ run (Bench.register_holds 0x8005) get_controller_temperature tt
     = (OK 0, tt)
  /\ run (Bench.register_holds 0x8005) get_controller_temperature tt
     <> (OK (-5), tt).
Proof.
  split; [reflexivity |]. split; [reflexivity |].
  discriminate.
Qed.

(** C3, amended: the controller sub-field sits in the high byte, so the
    words 0x8500 and 0x0500 give the controller temperatures -5 and +5;
    the words 0x8005 and 0x0005 carry their 5 in the battery sub-field and
    give battery temperature +5 and controller temperature 0. *)
Theorem controller_temperature_examples
    {St : Type} (h : Handler St) (s s' : St) :
  (h 0x0103 0 3 false s = (OK 0x8500, s') ->
   run h get_controller_temperature s = (OK (-5), s'))
  /\ (h 0x0103 0 3 false s = (OK 0x0500, s') ->
      run h get_controller_temperature s = (OK 5, s'))
  /\ (h 0x0103 0 3 false s = (OK 0x8005, s') ->
      run h get_controller_temperature s = (OK 0, s')
      /\ run h get_battery_temperature s = (OK 5, s'))
  /\ (h 0x0103 0 3 false s = (OK 0x0005, s') ->
      run h get_controller_temperature s = (OK 0, s')
      /\ run h get_battery_temperature s = (OK 5, s')).
Proof.
  unfold get_battery_temperature, get_controller_temperature.
  split; [| split; [| split]]; intros Hread;
    rewrite !run_bind, !run_read, Hread; try split; reflexivity.
Qed.

Lemma controller_temperature_examples_witness :
  run (Bench.register_holds 0x8500) get_controller_temperature tt
  = (OK (-5), tt)
  /\ run (Bench.register_holds 0x0500) get_controller_temperature tt
     = (OK 5, tt)
  /\ run (Bench.register_holds 0x8005) get_battery_temperature tt
     = (OK 5, tt)
  /\ run (Bench.register_holds 0x0005) get_battery_temperature tt
     = (OK 5, tt).
Proof.
  split; [| split; [| split]].
  - apply (proj1 (controller_temperature_examples
                    (Bench.register_holds 0x8500) tt tt)).
    reflexivity.
  - apply (proj1 (proj2 (controller_temperature_examples
                           (Bench.register_holds 0x0500) tt tt))).
    reflexivity.
  - apply (proj1 (proj2 (proj2 (controller_temperature_examples
                                  (Bench.register_holds 0x8005) tt tt)))).
    reflexivity.
  - apply (proj2 (proj2 (proj2 (controller_temperature_examples
                                  (Bench.register_holds 0x0005) tt tt)))).
    reflexivity.
Defined.

(** C6: when the read of register 0x0100 (function code 3, unsigned, no
    decimals) returns the word [w], 42 for one, the state-of-charge getter
    returns [w] as it is. *)
Theorem battery_state_of_charge_raw
    {St : Type} (h : Handler St) (s s' : St) (w : Z) :
  h 0x0100 0 3 false s = (OK w, s') ->
  run h get_battery_state_of_charge s = (OK w, s').
Proof.
  intros Hread. unfold get_battery_state_of_charge.
  rewrite run_read. exact Hread.
Qed.

Lemma battery_state_of_charge_raw_witness :
  Bench.primitive 0x0100 0 3 false tt = (OK 42, tt)
  /\ run Bench.primitive get_battery_state_of_charge tt = (OK 42, tt).
Proof.
  split; [reflexivity |].
  apply (battery_state_of_charge_raw Bench.primitive tt tt 42).
  reflexivity.
Defined.

(** C8: the software version is the pair of the words read from registers
    0x14 and then 0x15, the hardware version the pair of the words read
    from 0x16 and then 0x17; neither word is changed. *)
Theorem version_pairs_verbatim
    {St : Type} (h : Handler St) (s s1 s2 : St) (a b : Z) :
  (h 0x14 0 3 false s = (OK a, s1) ->
   h 0x15 0 3 false s1 = (OK b, s2) ->
   run h get_controller_software_version s = (OK (a, b), s2))
  /\ (h 0x16 0 3 false s = (OK a, s1) ->
      h 0x17 0 3 false s1 = (OK b, s2) ->
      run h get_controller_hardware_version s = (OK (a, b), s2)).
Proof.
  unfold get_controller_software_version, get_controller_hardware_version.
  split; intros Ha Hb;
    rewrite run_bind, run_read, Ha, run_bind, run_read, Hb; reflexivity.
Qed.

Lemma version_pairs_verbatim_witness :
  run Bench.primitive get_controller_software_version tt
  = (OK (0x0001, 0x0203), tt)
  /\ run Bench.primitive get_controller_hardware_version tt
     = (OK (0x0004, 0x0506), tt).
Proof.
  split.
  - apply (proj1 (version_pairs_verbatim Bench.primitive tt tt tt
                    0x0001 0x0203)); reflexivity.
  - apply (proj2 (version_pairs_verbatim Bench.primitive tt tt tt
                    0x0004 0x0506)); reflexivity.
Defined.

(* ================================================================== *)
(** ** The hint and the sign flag *)

Lemma words_to_integer_one (w : Z) :
  RetriableInstrument.words_to_integer [w] = w.
Proof. unfold RetriableInstrument.words_to_integer. simpl. lia. Qed.

(** C4: the raw-read primitive returns the same for any
    [number_of_decimals] and [signed]; and each getter that passes a nonzero
    hint returns the word [w] of the exchange itself, undivided and with no
    sign applied. *)
Theorem hint_and_sign_not_applied
    (T : RetriableInstrument.TransportSession)
    (policy : RetriableInstrument.RetryPolicy) :
  (forall a d fc sg s,
      RetriableInstrument.retriable_read_register T policy a d fc sg s
      = RetriableInstrument.retriable_read_register T policy a 0 fc false s)
  /\ (forall g addr hint s s' w,
         In (g, addr, hint) hinted_getters ->
         RetriableInstrument.exchange T
           (RetriableInstrument.mkRequest addr 3 1) s = (OK [w], s') ->
         hint <> 0
         /\ run (RetriableInstrument.retriable_read_register T policy) g s
            = (OK w, s')).
Proof.
  split; [reflexivity |].
  intros g addr hint s s' w Hin Hx.
  assert (Hraw : forall d sg,
             RetriableInstrument.retriable_read_register T policy
               addr d 3 sg s = (OK w, s')).
  { intros d sg. unfold RetriableInstrument.retriable_read_register.
    rewrite (attempt_loop_success T policy _ _ s s' [w]);
      [rewrite words_to_integer_one; reflexivity | simpl; lia | exact Hx]. }
  simpl in Hin.
  repeat (destruct Hin as [Hin | Hin];
          [injection Hin as <- <- <-;
           split; [discriminate
                  | etransitivity; [apply run_read | apply Hraw]] |]).
  contradiction.
Qed.

Lemma hint_and_sign_not_applied_witness :
  (In (get_solar_voltage, 0x0107, 1) hinted_getters
   /\ RetriableInstrument.exchange Bench.controller
        (RetriableInstrument.mkRequest 0x0107 3 1) tt = (OK [185], tt))
  /\ run Bench.primitive get_solar_voltage tt = (OK 185, tt).
Proof.
  split.
  - split; [left; reflexivity | reflexivity].
  - apply (proj2 (hint_and_sign_not_applied Bench.controller
                    Bench.three_attempts)
             get_solar_voltage 0x0107 1 tt tt 185).
    + left; reflexivity.
    + reflexivity.
Defined.

(* ================================================================== *)
(** ** The link settings *)

Lemma run_keeps_settings {W A : Type} (h : Handler (Instrument * W))
    (p : Prog A) :
  keeps_settings h ->
  forall st, settings (fst (snd (run h p st))) = settings (fst st).
Proof.
  intros Hkeep.
  induction p as [a | e | a d fc sg k IH]; intros st; cbn [run].
  - reflexivity.
  - reflexivity.
  - pose proof (Hkeep a d fc sg st) as Hstep.
    destruct (h a d fc sg st) as [[w | e] st']; cbn [fst snd] in *.
    + rewrite IH. exact Hstep.
    + exact Hstep.
Qed.

Lemma instrument_handler_keeps_settings
    (T : RetriableInstrument.TransportSession)
    (policy : RetriableInstrument.RetryPolicy) :
  keeps_settings (RetriableInstrument.instrument_handler T policy).
Proof.
  intros a d fc sg [self s]. unfold RetriableInstrument.instrument_handler.
  cbn [fst snd].
  destruct (RetriableInstrument.retriable_read_register T policy a d fc sg s);
    reflexivity.
Qed.

(** C7: whatever the inherited constructor builds, the object [__init__]
    returns has baud rate 9600, 8 data bits, no parity, 1 stop bit, a
    1-second timeout, RTU mode and buffer clearing before each transaction
    switched on; and after any getter, run against a primitive that leaves
    these settings alone, they are still the same. *)
Theorem link_settings_fixed
    (super_init : string -> Z -> Instrument)
    (portname : string) (slaveaddress : Z) :
  settings (init super_init portname slaveaddress) = renogy_settings
  /\ forall (W : Type) (h : Handler (Instrument * W)) name g (w : W),
       keeps_settings h ->
       In (name, g) getters ->
       settings
         (fst (snd (run h (projT2 g)
                        (init super_init portname slaveaddress, w))))
       = renogy_settings.
Proof.
  split; [reflexivity |].
  intros W h name g w Hkeep _.
  rewrite (run_keeps_settings h (projT2 g) Hkeep). reflexivity.
Qed.

Lemma link_settings_fixed_witness :
  (keeps_settings
     (RetriableInstrument.instrument_handler Bench.controller
        Bench.three_attempts)
   /\ In ("get_controller_model", existT Prog str get_controller_model)
         getters)
  /\ settings
       (fst (snd (run (RetriableInstrument.instrument_handler
                         Bench.controller Bench.three_attempts)
                      get_controller_model
                      (init Bench.base_instrument "/dev/ttyUSB0" 1, tt))))
     = renogy_settings.
Proof.
  split.
  - split.
    + exact (instrument_handler_keeps_settings Bench.controller
               Bench.three_attempts).
    + do 4 right. left. reflexivity.
  - apply (proj2 (link_settings_fixed Bench.base_instrument
                    "/dev/ttyUSB0" 1)
             (RetriableInstrument.session Bench.controller)
             (RetriableInstrument.instrument_handler Bench.controller
                Bench.three_attempts)
             "get_controller_model"
             (existT Prog str get_controller_model) tt).
    + exact (instrument_handler_keeps_settings Bench.controller
               Bench.three_attempts).
    + do 4 right. left. reflexivity.
Defined.

(* ================================================================== *)
(** ** Which calls the getters make *)

Ltac calls_discipline :=
  repeat first
    [ apply all_calls_read; split; reflexivity
    | apply all_calls_lift
    | apply all_calls_for_each; intros
    | apply all_calls_bind; [| intros]
    | apply all_calls_Return ].

(** C9: each of the 33 getters of the class calls the raw-read primitive
    with function code 3 and [signed=False] only, whatever the words the
    calls return. *)
Theorem getters_read_holding_unsigned :
  List.length getters = 33%nat
  /\ Forall (fun entry => all_calls holding_unsigned (projT2 (snd entry)))
            getters.
Proof.
  split; [reflexivity |].
  unfold getters.
  repeat (apply Forall_cons;
          [cbn [snd projT2];
           first [ unfold get_controller_model
                 | unfold get_controller_serial_number
                 | unfold get_controller_voltage_rating
                 | unfold get_controller_current_rating
                 | unfold get_controller_discharge_rating
                 | unfold get_controller_type
                 | unfold get_controller_software_version
                 | unfold get_controller_hardware_version
                 | unfold get_battery_temperature
                 | unfold get_controller_temperature
                 | idtac ];
           calls_discipline |]).
  apply Forall_nil.
Qed.

(* ================================================================== *)
(** ** Strings and byte sequences from consecutive registers *)

Lemma run_lift {St A : Type} (h : Handler St) (r : Result A) (s : St) :
  run h (lift r) s = (r, s).
Proof. destruct r; reflexivity. Qed.

Lemma get_controller_model_loop :
  get_controller_model
  = (output <- for_each (range 0x0C (0x13 + 1)) [] append_register ;;
     lift (bytearray_decode output))%prog.
Proof. reflexivity. Qed.

Lemma get_controller_serial_number_loop :
  get_controller_serial_number
  = for_each (range 0x18 (0x19 + 1)) [] append_register.
Proof. reflexivity. Qed.

(** C5: for 16-bit words [ws] read from any registers [regs] in turn, the
    loop assembles the high byte then the low byte of each word, in register
    order; read as UTF-8, the words 0x4142, 0x4344 are the string ABCD; and
    [get_controller_model] is this assembly over registers 0x0C to 0x13
    followed by the UTF-8 decoding. *)
Theorem string_assembly :
  (forall (St : Type) (h : Handler St) regs ws s s',
      Forall is_word16 ws ->
      read_words h regs s = (OK ws, s') ->
      run h (for_each regs [] append_register) s
      = (OK (flat_map high_low_bytes ws), s'))
  /\ decode_string [0x4142; 0x4344] = OK (str_of_string "ABCD")
  /\ (forall (St : Type) (h : Handler St) ws s s',
         Forall is_word16 ws ->
         read_words h [0x0C; 0x0D; 0x0E; 0x0F; 0x10; 0x11; 0x12; 0x13] s
         = (OK ws, s') ->
         run h get_controller_model s = (decode_string ws, s')).
Proof.
  split; [| split].
  - intros St h regs ws s s' Hws Hreads.
    rewrite <- (flat_map_word16 ws Hws).
    exact (run_for_each_append h regs ws [] s s' Hreads).
  - reflexivity.
  - intros St h ws s s' Hws Hreads.
    rewrite get_controller_model_loop, run_bind.
    change (range 0x0C (0x13 + 1))
      with [0x0C; 0x0D; 0x0E; 0x0F; 0x10; 0x11; 0x12; 0x13].
    rewrite (run_for_each_append h _ ws [] s s' Hreads).
    rewrite run_lift, (flat_map_word16 ws Hws). reflexivity.
Qed.

Lemma string_assembly_witness :
  (Forall is_word16
     [0x524E; 0x472D; 0x4354; 0x524C; 0x2D52; 0x5652; 0x3430; 0x2020]
   /\ read_words Bench.primitive
        [0x0C; 0x0D; 0x0E; 0x0F; 0x10; 0x11; 0x12; 0x13] tt
      = (OK [0x524E; 0x472D; 0x4354; 0x524C; 0x2D52; 0x5652; 0x3430; 0x2020],
         tt))
  /\ run Bench.primitive get_controller_model tt
     = (decode_string
          [0x524E; 0x472D; 0x4354; 0x524C; 0x2D52; 0x5652; 0x3430; 0x2020],
        tt).
Proof.
  assert (Hws : Forall is_word16
            [0x524E; 0x472D; 0x4354; 0x524C; 0x2D52; 0x5652; 0x3430; 0x2020])
    by (repeat constructor; unfold is_word16; lia).
  split.
  - split; [exact Hws | reflexivity].
  - apply (proj2 (proj2 string_assembly) unit Bench.primitive
             [0x524E; 0x472D; 0x4354; 0x524C; 0x2D52; 0x5652; 0x3430; 0x2020]
             tt tt Hws).
    reflexivity.
Defined.

(** C10: when the eight registers 0x0C to 0x13 all read 0xFFFF,
    [get_controller_model] raises a decode error and returns no string;
    [get_controller_serial_number] returns the four assembled bytes for any
    two words read from registers 0x18 and 0x19. *)
Theorem model_decode_not_total {St : Type} (h : Handler St) :
  (forall s s',
      read_words h [0x0C; 0x0D; 0x0E; 0x0F; 0x10; 0x11; 0x12; 0x13] s
      = (OK (repeat 0xFFFF 8), s') ->
      run h get_controller_model s = (Err UnicodeDecodeError, s'))
  /\ (forall ws s s',
         read_words h [0x18; 0x19] s = (OK ws, s') ->
         run h get_controller_serial_number s
         = (OK (flat_map masked_bytes ws), s')).
Proof.
  split.
  - intros s s' Hreads.
    rewrite get_controller_model_loop, run_bind.
    change (range 0x0C (0x13 + 1))
      with [0x0C; 0x0D; 0x0E; 0x0F; 0x10; 0x11; 0x12; 0x13].
    rewrite (run_for_each_append h _ _ [] s s' Hreads).
    reflexivity.
  - intros ws s s' Hreads.
    rewrite get_controller_serial_number_loop.
    change (range 0x18 (0x19 + 1)) with [0x18; 0x19].
    apply (run_for_each_append h _ ws [] s s' Hreads).
Qed.

Lemma model_decode_not_total_witness :
  (read_words (Bench.register_holds 0xFFFF)
     [0x0C; 0x0D; 0x0E; 0x0F; 0x10; 0x11; 0x12; 0x13] tt
   = (OK (repeat 0xFFFF 8), tt)
   /\ read_words Bench.primitive [0x18; 0x19] tt = (OK [0x1234; 0xABCD], tt))
  /\ run (Bench.register_holds 0xFFFF) get_controller_model tt
     = (Err UnicodeDecodeError, tt)
  /\ run Bench.primitive get_controller_serial_number tt
     = (OK [0x12; 0x34; 0xAB; 0xCD], tt).
Proof.
  split; [split; reflexivity |].
  split.
  - apply (proj1 (model_decode_not_total (Bench.register_holds 0xFFFF))
             tt tt).
    reflexivity.
  - apply (proj2 (model_decode_not_total Bench.primitive)
             [0x1234; 0xABCD] tt tt).
    reflexivity.
Defined.

(* ================================================================== *)
(** ** The two bytes of a register *)

Section Fields.

Import Observe.

(** The masked bytes of any integer, in arithmetic terms. *)
Lemma masked_low_mod (w : Z) : Z.land w 0x00FF = w mod 256.
Proof.
  change 0x00FF with (Z.ones 8). rewrite Z.land_ones by lia. reflexivity.
Qed.

Lemma masked_high_mod (w : Z) :
  Z.shiftr (Z.land w 0xFF00) 8 = (w / 256) mod 256.
Proof.
  rewrite masked_high_byte, masked_low_mod, Z.shiftr_div_pow2 by lia.
  reflexivity.
Qed.

Lemma reading_high_byte (w : Z) :
  reading get_controller_voltage_rating w = OK ((w / 256) mod 256)
  /\ reading get_controller_discharge_rating w = OK ((w / 256) mod 256).
Proof.
  unfold reading, get_controller_voltage_rating,
    get_controller_discharge_rating.
  rewrite !run_bind, !run_read. cbn [Bench.register_holds run fst].
  rewrite masked_high_mod. split; reflexivity.
Qed.

Lemma reading_low_byte (w : Z) :
  reading get_controller_current_rating w = OK (w mod 256)
  /\ reading get_controller_type w = OK (w mod 256).
Proof.
  unfold reading, get_controller_current_rating, get_controller_type.
  rewrite !run_bind, !run_read. cbn [Bench.register_holds run fst].
  rewrite masked_low_mod. split; reflexivity.
Qed.

(** The temperature getters, in arithmetic terms. *)
Lemma reading_battery_temperature (w : Z) :
  reading get_battery_temperature w
  = OK (signed_magnitude ((w / 128) mod 2 =? 1) (w mod 128)).
Proof.
  unfold reading, get_battery_temperature.
  rewrite run_bind, run_read. cbn [Bench.register_holds run fst].
  change 0x0080 with (2 ^ 7). rewrite flag_testbit by lia.
  rewrite Z.testbit_eqb by lia.
  change 0x007F with (Z.ones 7). rewrite Z.land_ones by lia.
  reflexivity.
Qed.

Lemma reading_controller_temperature (w : Z) :
  reading get_controller_temperature w
  = OK (signed_magnitude ((w / 32768) mod 2 =? 1) ((w / 256) mod 128)).
Proof.
  unfold reading, get_controller_temperature.
  rewrite run_bind, run_read. cbn [Bench.register_holds run fst].
  change 0x8000 with (2 ^ 15). rewrite flag_testbit by lia.
  rewrite Z.testbit_eqb by lia.
  rewrite masked_high_magnitude.
  change 0x7F with (Z.ones 7). rewrite Z.land_ones by lia.
  rewrite Z.shiftr_div_pow2 by lia.
  reflexivity.
Qed.

End Fields.

(** X1: the rating getters split a 16-bit register into its two bytes
    without loss: the voltage (or discharge) rating is the high byte, the
    current rating (or type) the low byte, each within 0..255, and 256 times
    the first plus the second is the register word again. *)
Theorem ratings_recompose (w : Z) :
  is_word16 w ->
  exists hi lo,
    Observe.reading get_controller_voltage_rating w = OK hi
    /\ Observe.reading get_controller_current_rating w = OK lo
    /\ Observe.reading get_controller_discharge_rating w = OK hi
    /\ Observe.reading get_controller_type w = OK lo
    /\ 0 <= hi < 256 /\ 0 <= lo < 256
    /\ 256 * hi + lo = w.
Proof.
  intros [Hlo Hhi].
  exists ((w / 256) mod 256), (w mod 256).
  destruct (reading_high_byte w) as [Hv Hd].
  destruct (reading_low_byte w) as [Hc Ht].
  repeat split; try assumption;
    try (apply Z.mod_pos_bound; lia).
  rewrite (Z.mod_small (w / 256)).
  - symmetry. apply Z.div_mod. lia.
  - split; [apply Z.div_pos; lia | apply Z.div_lt_upper_bound; lia].
Qed.

Lemma ratings_recompose_witness :
  is_word16 0x0C28
  /\ exists hi lo,
       Observe.reading get_controller_voltage_rating 0x0C28 = OK hi
       /\ Observe.reading get_controller_current_rating 0x0C28 = OK lo
       /\ Observe.reading get_controller_discharge_rating 0x0C28 = OK hi
       /\ Observe.reading get_controller_type 0x0C28 = OK lo
       /\ 0 <= hi < 256 /\ 0 <= lo < 256
       /\ 256 * hi + lo = 0x0C28.
Proof.
  assert (H : is_word16 0x0C28) by (unfold is_word16; lia).
  split; [exact H | apply (ratings_recompose 0x0C28 H)].
Defined.

(** X2: whatever integer the read of register 0x0103 returns, both
    temperatures lie between -127 and 127. *)
Theorem temperatures_bounded (w : Z) :
  exists battery controller,
    Observe.reading get_battery_temperature w = OK battery
    /\ Observe.reading get_controller_temperature w = OK controller
    /\ -127 <= battery <= 127
    /\ -127 <= controller <= 127.
Proof.
  eexists; eexists.
  split; [apply reading_battery_temperature |].
  split; [apply reading_controller_temperature |].
  pose proof (Z.mod_pos_bound w 128 ltac:(lia)).
  pose proof (Z.mod_pos_bound (w / 256) 128 ltac:(lia)).
  unfold signed_magnitude.
  split; [destruct ((w / 128) mod 2 =? 1) | destruct ((w / 32768) mod 2 =? 1)];
    lia.
Qed.

(** X3: the two temperatures are independent: the battery temperature is
    decided by the low byte of the word alone and the controller
    temperature by the high byte alone. *)
Theorem temperatures_independent (w1 w2 : Z) :
  (w1 mod 256 = w2 mod 256 ->
   Observe.reading get_battery_temperature w1
   = Observe.reading get_battery_temperature w2)
  /\ ((w1 / 256) mod 256 = (w2 / 256) mod 256 ->
      Observe.reading get_controller_temperature w1
      = Observe.reading get_controller_temperature w2).
Proof.
  rewrite !reading_battery_temperature, !reading_controller_temperature.
  split; intros Heq.
  - replace (w1 mod 128) with (w2 mod 128)
      by (pose proof Heq; Z.to_euclidean_division_equations; lia).
    replace ((w1 / 128) mod 2) with ((w2 / 128) mod 2)
      by (pose proof Heq; Z.to_euclidean_division_equations; lia).
    reflexivity.
  - replace ((w1 / 256) mod 128) with ((w2 / 256) mod 128)
      by (pose proof Heq; Z.to_euclidean_division_equations; lia).
    replace ((w1 / 32768) mod 2) with ((w2 / 32768) mod 2)
      by (pose proof Heq; Z.to_euclidean_division_equations; lia).
    reflexivity.
Qed.

Lemma temperatures_independent_witness :
  (0x8519 mod 256 = 0x0019 mod 256
   /\ (0x8519 / 256) mod 256 = (0x85FF / 256) mod 256)
  /\ Observe.reading get_battery_temperature 0x8519
     = Observe.reading get_battery_temperature 0x0019
  /\ Observe.reading get_controller_temperature 0x8519
     = Observe.reading get_controller_temperature 0x85FF.
Proof.
  split; [split; reflexivity |].
  split.
  - apply (proj1 (temperatures_independent 0x8519 0x0019)). reflexivity.
  - apply (proj2 (temperatures_independent 0x8519 0x85FF)). reflexivity.
Defined.

(** X4: every pair of temperatures between -127 and 127 is carried by a
    16-bit word: written as two sign-and-magnitude bytes, controller byte
    high and battery byte low, it is read back as that pair. *)
Theorem temperatures_round_trip (controller battery : Z) :
  -127 <= controller <= 127 ->
  -127 <= battery <= 127 ->
  is_word16 (Observe.temperature_word controller battery)
  /\ Observe.reading get_controller_temperature
       (Observe.temperature_word controller battery) = OK controller
  /\ Observe.reading get_battery_temperature
       (Observe.temperature_word controller battery) = OK battery.
Proof.
  intros Hc Hb.
  rewrite reading_battery_temperature, reading_controller_temperature.
  unfold Observe.temperature_word, Observe.signed_magnitude_byte,
    signed_magnitude, is_word16.
  destruct (Z.ltb_spec controller 0) as [Hcn | Hcp];
    destruct (Z.ltb_spec battery 0) as [Hbn | Hbp].
  all: match goal with
       | |- context [256 * ?c + ?b] =>
         set (word := 256 * c + b);
         assert (Hword : word = 256 * c + b) by reflexivity;
         clearbody word
       end.
  all: split; [lia |].
  all: split; f_equal.
  all: match goal with
       | |- context [?x mod 2 =? 1] =>
         destruct (Z.eqb_spec (x mod 2) 1)
       end.
  all: Z.to_euclidean_division_equations; lia.
Qed.

Lemma temperatures_round_trip_witness :
  (-127 <= -5 <= 127 /\ -127 <= 25 <= 127)
  /\ is_word16 (Observe.temperature_word (-5) 25)
  /\ Observe.reading get_controller_temperature
       (Observe.temperature_word (-5) 25) = OK (-5)
  /\ Observe.reading get_battery_temperature
       (Observe.temperature_word (-5) 25) = OK 25.
Proof.
  split; [lia |].
  apply (temperatures_round_trip (-5) 25); lia.
Defined.

(* ================================================================== *)
(** ** When a read raises *)

Section Failures.

Import Observe.

Context {St : Type} (h : Handler St).

(** A failed read ends the byte-assembling loop there and then. *)
Lemma run_for_each_append_fails (regs : list Z) (e : Exception)
    (output : list Z) (s s' : St) :
  read_words h regs s = (Err e, s') ->
  run h (for_each regs output append_register) s = (Err e, s').
Proof.
  revert output s.
  induction regs as [| reg regs IH]; intros output s Hreads;
    cbn [read_words for_each] in *.
  - discriminate.
  - rewrite run_bind.
    destruct (h reg 0 3 false s) as [[w | e1] s1] eqn:Hread.
    + rewrite (run_append_register h _ _ _ _ _ Hread).
      destruct (read_words h regs s1) as [[ws | e2] s2] eqn:Hrest;
        [discriminate |].
      injection Hreads as <- <-. apply IH. exact Hrest.
    + injection Hreads as <- <-.
      unfold append_register. rewrite run_bind, run_read, Hread.
      reflexivity.
Qed.

(** A program that begins with a call, on a primitive that only raises. *)
Lemma run_first_call_raises {A : Type} (p : Prog A) (e : Exception)
    (s : St) (n : nat) :
  makes_a_call p = true ->
  always_raises h e ->
  fst (run (counted h) p (s, n)) = Err e
  /\ snd (snd (run (counted h) p (s, n))) = S n.
Proof.
  intros Hcall Hraises.
  destruct p as [a | e1 | a d fc sg k]; try discriminate.
  cbn [run]. unfold counted at 1 3. cbn [fst snd].
  pose proof (Hraises a d fc sg s) as Hx.
  destruct (h a d fc sg s) as [r s1]. cbn [fst] in Hx. subst r.
  split; reflexivity.
Qed.

End Failures.

Lemma getters_make_a_call :
  Forall (fun entry => Observe.makes_a_call (projT2 (snd entry)) = true)
         getters.
Proof. repeat constructor. Qed.

(** X5: if one of the reads of a byte-assembling loop raises,
    [get_controller_model] and [get_controller_serial_number] raise that
    exception in the state that read left: the registers after it are not
    read and nothing assembled so far is returned. *)
Theorem loops_stop_at_failed_read
    {St : Type} (h : Handler St) (s s' : St) (e : Exception) :
  (read_words h [0x0C; 0x0D; 0x0E; 0x0F; 0x10; 0x11; 0x12; 0x13] s
   = (Err e, s') ->
   run h get_controller_model s = (Err e, s'))
  /\ (read_words h [0x18; 0x19] s = (Err e, s') ->
      run h get_controller_serial_number s = (Err e, s')).
Proof.
  split; intros Hreads.
  - rewrite get_controller_model_loop, run_bind.
    change (range 0x0C (0x13 + 1))
      with [0x0C; 0x0D; 0x0E; 0x0F; 0x10; 0x11; 0x12; 0x13].
    rewrite (run_for_each_append_fails h _ e [] s s' Hreads).
    reflexivity.
  - rewrite get_controller_serial_number_loop.
    change (range 0x18 (0x19 + 1)) with [0x18; 0x19].
    apply (run_for_each_append_fails h _ e [] s s' Hreads).
Qed.

Lemma loops_stop_at_failed_read_witness :
  (read_words (Observe.fails_at 0x0E (TransportError Timeout))
     [0x0C; 0x0D; 0x0E; 0x0F; 0x10; 0x11; 0x12; 0x13] 0%nat
   = (Err (TransportError Timeout), 3%nat)
   /\ read_words (Observe.fails_at 0x19 (DeviceExceptionError 2))
        [0x18; 0x19] 0%nat
      = (Err (DeviceExceptionError 2), 2%nat))
  /\ run (Observe.fails_at 0x0E (TransportError Timeout))
         get_controller_model 0%nat
     = (Err (TransportError Timeout), 3%nat)
  /\ run (Observe.fails_at 0x19 (DeviceExceptionError 2))
         get_controller_serial_number 0%nat
     = (Err (DeviceExceptionError 2), 2%nat).
Proof.
  split; [split; reflexivity |].
  split.
  - apply (proj1 (loops_stop_at_failed_read
                    (Observe.fails_at 0x0E (TransportError Timeout))
                    0%nat 3%nat (TransportError Timeout))).
    reflexivity.
  - apply (proj2 (loops_stop_at_failed_read
                    (Observe.fails_at 0x19 (DeviceExceptionError 2))
                    0%nat 2%nat (DeviceExceptionError 2))).
    reflexivity.
Defined.

(** X6: against a primitive that raises [e] at every call, each of the
    getters raises [e] itself, and does so after a single call: none
    returns a fallback value, and none calls again. *)
Theorem getters_raise_what_the_primitive_raises
    {St : Type} (h : Handler St) (e : Exception)
    (name : string) (g : {A : Type & Prog A}) (s : St) (n : nat) :
  Observe.always_raises h e ->
  In (name, g) getters ->
  fst (run (Observe.counted h) (projT2 g) (s, n)) = Err e
  /\ snd (snd (run (Observe.counted h) (projT2 g) (s, n))) = S n.
Proof.
  intros Hraises Hin.
  apply run_first_call_raises; [| exact Hraises].
  pose proof getters_make_a_call as Hall.
  rewrite Forall_forall in Hall.
  apply (Hall (name, g) Hin).
Qed.

Lemma getters_raise_what_the_primitive_raises_witness :
  (Observe.always_raises (Observe.unplugged (TransportError PortError))
     (TransportError PortError)
   /\ In ("get_controller_model", existT Prog (list Z) get_controller_model)
         getters)
  /\ fst (run (Observe.counted
                 (Observe.unplugged (TransportError PortError)))
              get_controller_model (tt, 0%nat))
     = Err (TransportError PortError)
  /\ snd (snd (run (Observe.counted
                      (Observe.unplugged (TransportError PortError)))
                   get_controller_model (tt, 0%nat)))
     = 1%nat.
Proof.
  split.
  - split; [intros a d fc sg s; reflexivity |].
    do 4 right. left. reflexivity.
  - apply (getters_raise_what_the_primitive_raises
             (Observe.unplugged (TransportError PortError))
             (TransportError PortError)
             "get_controller_model"
             (existT Prog (list Z) get_controller_model) tt 0%nat).
    + intros a d fc sg s; reflexivity.
    + do 4 right. left. reflexivity.
Defined.

(* ================================================================== *)
(** ** Exceptions of the getters' own, and the number of reads *)

Section OwnExceptions.

Import Observe.

Context (P : Exception -> Prop).

Lemma raises_only_bind {A B : Type} (p : Prog A) (f : A -> Prog B) :
  raises_only P p -> (forall a, raises_only P (f a)) ->
  raises_only P (bind p f).
Proof.
  intros Hp Hf. induction Hp as [a | e He | a d fc sg k _ IH]; cbn [bind].
  - apply Hf.
  - constructor. exact He.
  - constructor. exact IH.
Qed.

Lemma raises_only_read (a d fc : Z) (sg : bool) :
  raises_only P (retriable_read_register a d fc sg).
Proof. constructor. intros w. constructor. Qed.

(** Appending either masked byte never raises. *)
Lemma raises_only_append_high (output : list Z) (w : Z) :
  raises_only P
    (lift (bytearray_append output (Z.shiftr (Z.land w 0xFF00) 8))).
Proof. unfold bytearray_append. rewrite is_byte_high. constructor. Qed.

Lemma raises_only_append_low (output : list Z) (w : Z) :
  raises_only P (lift (bytearray_append output (Z.land w 0x00FF))).
Proof. unfold bytearray_append. rewrite is_byte_low. constructor. Qed.

Lemma raises_only_for_each {A : Type} (xs : list Z) (acc : A)
    (body : Z -> A -> Prog A) :
  (forall x a, raises_only P (body x a)) ->
  raises_only P (for_each xs acc body).
Proof.
  intros Hbody. revert acc.
  induction xs as [| x xs IH]; intros acc; cbn [for_each].
  - constructor.
  - apply raises_only_bind; [apply Hbody | intros acc'; apply IH].
Qed.

Lemma raises_only_decode (output : list Z) :
  P UnicodeDecodeError -> raises_only P (lift (bytearray_decode output)).
Proof.
  intros HP. unfold bytearray_decode.
  destruct (utf8_decode output); constructor. exact HP.
Qed.

(** On a primitive that answers, the program returns, or raises one of its
    own exceptions. *)
Lemma run_raises_only {St A : Type} (h : Handler St) (p : Prog A) :
  raises_only P p -> answers h ->
  forall s,
    (exists v s', run h p s = (OK v, s'))
    \/ (exists e s', P e /\ run h p s = (Err e, s')).
Proof.
  intros Hp Hans.
  induction Hp as [a | e He | a d fc sg k _ IH]; intros s; cbn [run].
  - left. exists a, s. reflexivity.
  - right. exists e, s. split; [exact He | reflexivity].
  - destruct (Hans a d fc sg s) as (w & s1 & Hread). rewrite Hread.
    apply IH.
Qed.

End OwnExceptions.

Section ReadCounts.

Import Observe.

Lemma makes_calls_bind {A B : Type} (n m : nat) (p : Prog A)
    (f : A -> Prog B) :
  raises_only (fun _ => False) p ->
  makes_calls n p -> (forall a, makes_calls m (f a)) ->
  makes_calls (n + m) (bind p f).
Proof.
  intros Hsafe Hp Hf.
  induction Hp as [a | e | n a d fc sg k _ IH]; cbn [bind].
  - apply Hf.
  - inversion Hsafe; contradiction.
  - cbn [Nat.add]. constructor. intros w. apply IH.
    inversion Hsafe; subst. auto.
Qed.

Lemma raises_only_append_register (P : Exception -> Prop) (reg : Z)
    (output : list Z) :
  raises_only P (append_register reg output).
Proof.
  unfold append_register.
  apply raises_only_bind; [apply raises_only_read | intros w].
  apply raises_only_bind; [apply raises_only_append_high | intros out].
  apply raises_only_append_low.
Qed.

Lemma makes_calls_append_register (reg : Z) (output : list Z) :
  makes_calls 1 (append_register reg output).
Proof.
  unfold append_register, retriable_read_register. cbn [bind].
  constructor. intros w.
  unfold bytearray_append. rewrite is_byte_high. cbn [lift bind].
  rewrite is_byte_low. constructor.
Qed.

Lemma makes_calls_for_each_append (regs : list Z) (output : list Z) :
  makes_calls (List.length regs) (for_each regs output append_register).
Proof.
  revert output.
  induction regs as [| reg regs IH]; intros output; cbn [for_each List.length].
  - constructor.
  - apply (makes_calls_bind 1 (List.length regs)).
    + apply raises_only_append_register.
    + apply makes_calls_append_register.
    + intros acc. apply IH.
Qed.

Lemma makes_calls_decode (output : list Z) :
  makes_calls 0 (lift (bytearray_decode output)).
Proof. unfold bytearray_decode. destruct (utf8_decode output); constructor. Qed.

(** On a primitive that answers, the calls are made. *)
Lemma run_makes_calls {St A : Type} (h : Handler St) (n : nat) (p : Prog A) :
  makes_calls n p -> answers h ->
  forall s c, snd (snd (run (counted h) p (s, c))) = (c + n)%nat.
Proof.
  intros Hp Hans.
  induction Hp as [a | e | n a d fc sg k _ IH]; intros s c; cbn [run].
  - cbn [snd]. lia.
  - cbn [snd]. lia.
  - unfold counted at 1. cbn [fst snd].
    destruct (Hans a d fc sg s) as (w & s1 & Hread). rewrite Hread.
    rewrite IH. lia.
Qed.

End ReadCounts.

Ltac own_exceptions :=
  repeat first
    [ apply raises_only_read
    | apply raises_only_append_high
    | apply raises_only_append_low
    | apply raises_only_decode; split; reflexivity
    | apply raises_only_for_each; intros; cbv beta
    | apply raises_only_bind; [| intros]
    | apply Observe.raises_only_Return ].

Lemma getters_own_exceptions :
  Forall (fun entry =>
            Observe.raises_only
              (fun e => fst entry = "get_controller_model"
                        /\ e = UnicodeDecodeError)
              (projT2 (snd entry)))
         getters.
Proof.
  unfold getters.
  repeat (apply Forall_cons;
          [cbn [fst snd projT2];
           first [ unfold get_controller_model
                 | unfold get_controller_serial_number
                 | unfold get_controller_voltage_rating
                 | unfold get_controller_current_rating
                 | unfold get_controller_discharge_rating
                 | unfold get_controller_type
                 | unfold get_controller_software_version
                 | unfold get_controller_hardware_version
                 | unfold get_battery_temperature
                 | unfold get_controller_temperature
                 | idtac ];
           own_exceptions |]).
  apply Forall_nil.
Qed.

Lemma getters_make_their_calls :
  Forall (fun entry =>
            Observe.makes_calls (Observe.reads_per_call (fst entry))
                                (projT2 (snd entry)))
         getters.
Proof.
  unfold getters.
  repeat (apply Forall_cons;
          [cbn [fst snd projT2];
           first
             [ rewrite get_controller_model_loop;
               apply (makes_calls_bind 8 0);
               [ apply raises_only_for_each; intros;
                 apply raises_only_append_register
               | apply (makes_calls_for_each_append
                          [0x0C; 0x0D; 0x0E; 0x0F; 0x10; 0x11; 0x12; 0x13])
               | intros; apply makes_calls_decode ]
             | rewrite get_controller_serial_number_loop;
               apply (makes_calls_for_each_append [0x18; 0x19])
             | repeat (constructor; intros) ] |]).
  apply Forall_nil.
Qed.

(** X7: on a primitive that answers every call, no getter raises
    an exception of its own, except [get_controller_model], whose only one
    is the decode error: every other getter returns a value, whatever the
    words read. *)
Theorem getters_raise_nothing_of_their_own
    {St : Type} (h : Handler St)
    (name : string) (g : {A : Type & Prog A}) (s : St) :
  Observe.answers h ->
  In (name, g) getters ->
  (exists v s', run h (projT2 g) s = (OK v, s'))
  \/ (name = "get_controller_model"
      /\ exists s', run h (projT2 g) s = (Err UnicodeDecodeError, s')).
Proof.
  intros Hans Hin.
  pose proof getters_own_exceptions as Hall.
  rewrite Forall_forall in Hall.
  destruct (run_raises_only _ h (projT2 g) (Hall (name, g) Hin) Hans s)
    as [Hok | (e & s' & [Hname He] & Hrun)].
  - left. exact Hok.
  - right. cbn [fst] in Hname. subst e.
    split; [exact Hname | exists s'; exact Hrun].
Qed.

Lemma getters_raise_nothing_of_their_own_witness :
  (Observe.answers (Bench.register_holds 0xFFFF)
   /\ In ("get_controller_serial_number",
          existT Prog (list Z) get_controller_serial_number) getters)
  /\ ((exists v s',
          run (Bench.register_holds 0xFFFF) get_controller_serial_number tt
          = (OK v, s'))
      \/ ("get_controller_serial_number" = "get_controller_model"
          /\ exists s',
               run (Bench.register_holds 0xFFFF)
                   get_controller_serial_number tt
               = (Err UnicodeDecodeError, s'))).
Proof.
  split.
  - split; [intros a d fc sg s; exists 0xFFFF, s; reflexivity |].
    do 7 right. left. reflexivity.
  - apply (getters_raise_nothing_of_their_own
             (Bench.register_holds 0xFFFF)
             "get_controller_serial_number"
             (existT Prog (list Z) get_controller_serial_number) tt).
    + intros a d fc sg s; exists 0xFFFF, s; reflexivity.
    + do 7 right. left. reflexivity.
Defined.

(** X8: on a primitive that answers every call, a getter makes a fixed
    number of reads, whatever words come back and whether or not the model
    name decodes: eight for [get_controller_model], two for the two version
    getters and [get_controller_serial_number], one for every other
    getter. *)
Theorem getters_read_counts
    {St : Type} (h : Handler St)
    (name : string) (g : {A : Type & Prog A}) (s : St) (c : nat) :
  Observe.answers h ->
  In (name, g) getters ->
  snd (snd (run (Observe.counted h) (projT2 g) (s, c)))
  = (c + Observe.reads_per_call name)%nat.
Proof.
  intros Hans Hin.
  pose proof getters_make_their_calls as Hall.
  rewrite Forall_forall in Hall.
  apply (run_makes_calls h _ _ (Hall (name, g) Hin) Hans).
Qed.

Lemma getters_read_counts_witness :
  (Observe.answers (Bench.register_holds 0xFFFF)
   /\ In ("get_controller_model", existT Prog (list Z) get_controller_model)
         getters)
  /\ snd (snd (run (Observe.counted (Bench.register_holds 0xFFFF))
                   get_controller_model (tt, 0%nat)))
     = 8%nat.
Proof.
  split.
  - split; [intros a d fc sg s; exists 0xFFFF, s; reflexivity |].
    do 4 right. left. reflexivity.
  - apply (getters_read_counts (Bench.register_holds 0xFFFF)
             "get_controller_model"
             (existT Prog (list Z) get_controller_model) tt 0%nat).
    + intros a d fc sg s; exists 0xFFFF, s; reflexivity.
    + do 4 right. left. reflexivity.
Defined.

(* ================================================================== *)
(** ** The model name and the serial number *)

Section Names.

Lemma utf8_decode_ascii (bs : list Z) :
  Forall (fun b => 0 <= b < 128) bs -> utf8_decode bs = Some bs.
Proof.
  induction 1 as [| b bs [Hlo Hhi] _ IH]; cbn [utf8_decode].
  - reflexivity.
  - replace (in_range 0x00 0x7F b) with true.
    + rewrite IH. reflexivity.
    + symmetry. unfold in_range.
      apply andb_true_intro; split; apply Z.leb_le; lia.
Qed.

(** A decoded string has one code point for every one to four bytes. *)
Lemma utf8_decode_length (n : nat) :
  forall (bs s : list Z),
    (List.length bs <= n)%nat ->
    utf8_decode bs = Some s ->
    (List.length s <= List.length bs <= 4 * List.length s)%nat.
Proof.
  induction n as [| n IH]; intros bs s Hn Hd.
  - destruct bs; [| cbn [List.length] in Hn; lia].
    injection Hd as <-. cbn [List.length]. lia.
  - destruct bs as [| b0 r0].
    + injection Hd as <-. cbn [List.length]. lia.
    + cbn [utf8_decode] in Hd.
      repeat match type of Hd with
             | context [match ?l with [] => _ | _ :: _ => _ end] =>
               destruct l; try discriminate Hd
             | context [if ?c then _ else _] =>
               destruct c; try discriminate Hd
             end.
      all: match type of Hd with
           | option_map _ (utf8_decode ?r) = Some _ =>
             destruct (utf8_decode r) as [tail |] eqn:Htail;
               cbn [option_map] in Hd; [| discriminate Hd];
               injection Hd as <-;
               pose proof (IH r tail ltac:(cbn [List.length] in *; lia)
                             Htail);
               cbn [List.length] in *; lia
           end.
Qed.

Lemma read_words_length {St : Type} (h : Handler St) (regs ws : list Z)
    (s s' : St) :
  read_words h regs s = (OK ws, s') -> List.length ws = List.length regs.
Proof.
  revert ws s.
  induction regs as [| reg regs IH]; intros ws s Hreads;
    cbn [read_words] in Hreads.
  - injection Hreads as <- _. reflexivity.
  - destruct (h reg 0 3 false s) as [[w | e] s1]; [| discriminate].
    destruct (read_words h regs s1) as [[ws' | e] s2] eqn:Hrest;
      [| discriminate].
    injection Hreads as <- <-. cbn [List.length].
    rewrite (IH _ _ Hrest). reflexivity.
Qed.

Lemma flat_map_masked_bytes_length (ws : list Z) :
  List.length (flat_map masked_bytes ws) = (2 * List.length ws)%nat.
Proof.
  induction ws as [| w ws IH]; cbn [flat_map List.length].
  - reflexivity.
  - unfold masked_bytes at 1. cbn [app List.length]. rewrite IH. lia.
Qed.

Lemma ascii_word_bytes (w : Z) :
  Observe.ascii_word w ->
  is_word16 w /\ Forall (fun b => 0 <= b < 128) (high_low_bytes w).
Proof.
  intros [[Hlo Hhi] Hlow]. split; [unfold is_word16; lia |].
  unfold high_low_bytes.
  repeat constructor;
    try (apply Z.div_pos; lia);
    try (apply Z.div_lt_upper_bound; lia);
    try exact Hlow.
  apply Z.mod_pos_bound. lia.
Qed.

Lemma ascii_words_bytes (ws : list Z) :
  Forall Observe.ascii_word ws ->
  Forall is_word16 ws
  /\ Forall (fun b => 0 <= b < 128) (flat_map high_low_bytes ws).
Proof.
  induction 1 as [| w ws Hw _ [IHw IHb]]; cbn [flat_map].
  - split; constructor.
  - destruct (ascii_word_bytes w Hw) as [Hw16 Hbytes].
    split; [constructor; assumption |].
    apply Forall_app. split; assumption.
Qed.

(** The whole of [get_controller_model], whatever the eight reads do. *)
Lemma run_get_controller_model {St : Type} (h : Handler St) (s : St) :
  run h get_controller_model s =
  match read_words h [0x0C; 0x0D; 0x0E; 0x0F; 0x10; 0x11; 0x12; 0x13] s with
  | (OK ws, s') => (bytearray_decode (flat_map masked_bytes ws), s')
  | (Err e, s') => (Err e, s')
  end.
Proof.
  rewrite get_controller_model_loop, run_bind.
  change (range 0x0C (0x13 + 1))
    with [0x0C; 0x0D; 0x0E; 0x0F; 0x10; 0x11; 0x12; 0x13].
  destruct (read_words h [0x0C; 0x0D; 0x0E; 0x0F; 0x10; 0x11; 0x12; 0x13] s)
    as [[ws | e] s'] eqn:Hreads.
  - rewrite (run_for_each_append h _ ws [] s s' Hreads).
    cbn [app]. apply run_lift.
  - rewrite (run_for_each_append_fails h _ e [] s s' Hreads).
    reflexivity.
Qed.

End Names.

(** X9: a model name stored as ASCII comes back as it is stored: when the
    eight words read from registers 0x0C to 0x13 each hold two bytes below
    128, [get_controller_model] returns those sixteen bytes, high byte
    before low byte in register order, as the code points of the name. *)
Theorem ascii_model_name_unchanged
    {St : Type} (h : Handler St) (ws : list Z) (s s' : St) :
  Forall Observe.ascii_word ws ->
  read_words h [0x0C; 0x0D; 0x0E; 0x0F; 0x10; 0x11; 0x12; 0x13] s
  = (OK ws, s') ->
  run h get_controller_model s = (OK (flat_map high_low_bytes ws), s').
Proof.
  intros Hascii Hreads.
  destruct (ascii_words_bytes ws Hascii) as [Hw16 Hbytes].
  rewrite run_get_controller_model, Hreads.
  rewrite (flat_map_word16 ws Hw16).
  unfold bytearray_decode. rewrite (utf8_decode_ascii _ Hbytes).
  reflexivity.
Qed.

Lemma ascii_model_name_unchanged_witness :
  (Forall Observe.ascii_word
     [0x524E; 0x472D; 0x4354; 0x524C; 0x2D52; 0x5652; 0x3430; 0x2020]
   /\ read_words Bench.primitive
        [0x0C; 0x0D; 0x0E; 0x0F; 0x10; 0x11; 0x12; 0x13] tt
      = (OK [0x524E; 0x472D; 0x4354; 0x524C; 0x2D52; 0x5652; 0x3430; 0x2020],
         tt))
  /\ run Bench.primitive get_controller_model tt
     = (OK (str_of_string "RNG-CTRL-RVR40  "), tt).
Proof.
  assert (Hascii : Forall Observe.ascii_word
            [0x524E; 0x472D; 0x4354; 0x524C; 0x2D52; 0x5652; 0x3430; 0x2020]).
  { repeat constructor; cbn; lia. }
  split.
  - split; [exact Hascii | reflexivity].
  - apply (ascii_model_name_unchanged Bench.primitive
             [0x524E; 0x472D; 0x4354; 0x524C; 0x2D52; 0x5652; 0x3430; 0x2020]
             tt tt Hascii).
    reflexivity.
Defined.

(** X10: whenever [get_controller_model] returns, the name has at least 4
    and at most 16 characters: sixteen bytes were decoded, and a character
    takes one to four of them. *)
Theorem model_name_length
    {St : Type} (h : Handler St) (s s' : St) (name : list Z) :
  run h get_controller_model s = (OK name, s') ->
  (4 <= List.length name <= 16)%nat.
Proof.
  rewrite run_get_controller_model.
  destruct (read_words h [0x0C; 0x0D; 0x0E; 0x0F; 0x10; 0x11; 0x12; 0x13] s)
    as [[ws | e] s1] eqn:Hreads; [| discriminate].
  unfold bytearray_decode.
  destruct (utf8_decode (flat_map masked_bytes ws)) as [decoded |] eqn:Hd;
    [| discriminate].
  intros Hrun. injection Hrun as <- _.
  pose proof (read_words_length h _ _ _ _ Hreads) as Hlen.
  pose proof (flat_map_masked_bytes_length ws) as Hbytes.
  pose proof (utf8_decode_length _ _ _ (le_n _) Hd) as Hbound.
  cbn [List.length] in Hlen. lia.
Qed.

Lemma model_name_length_witness :
  run Bench.primitive get_controller_model tt
  = (OK (str_of_string "RNG-CTRL-RVR40  "), tt)
  /\ (4 <= List.length (str_of_string "RNG-CTRL-RVR40  ") <= 16)%nat.
Proof.
  split; [reflexivity |].
  apply (model_name_length Bench.primitive tt tt
           (str_of_string "RNG-CTRL-RVR40  ")).
  reflexivity.
Defined.

(** X11: [get_controller_serial_number] returns exactly four bytes, each in
    0..255, and loses nothing of 16-bit registers: the first two bytes
    recompose the word of register 0x18 and the last two the word of
    register 0x19. *)
Theorem serial_number_four_bytes
    {St : Type} (h : Handler St) (ws : list Z) (s s' : St) :
  read_words h [0x18; 0x19] s = (OK ws, s') ->
  exists b0 b1 b2 b3,
    run h get_controller_serial_number s = (OK [b0; b1; b2; b3], s')
    /\ Forall (fun b => 0 <= b < 256) [b0; b1; b2; b3]
    /\ (Forall is_word16 ws -> ws = [256 * b0 + b1; 256 * b2 + b3]).
Proof.
  intros Hreads.
  pose proof (read_words_length h _ _ _ _ Hreads) as Hlen.
  destruct ws as [| w1 [| w2 [| w3 ws]]]; try discriminate Hlen.
  exists ((w1 / 256) mod 256), (w1 mod 256),
         ((w2 / 256) mod 256), (w2 mod 256).
  split; [| split].
  - rewrite get_controller_serial_number_loop.
    change (range 0x18 (0x19 + 1)) with [0x18; 0x19].
    rewrite (run_for_each_append h _ _ [] s s' Hreads).
    cbn [flat_map app]. unfold masked_bytes.
    rewrite !masked_high_mod, !masked_low_mod. reflexivity.
  - repeat constructor; apply Z.mod_pos_bound; lia.
  - intros Hw16.
    inversion Hw16 as [| ? ? [H1lo H1hi] Hrest]; subst.
    inversion Hrest as [| ? ? [H2lo H2hi] _]; subst.
    f_equal; [| f_equal].
    + rewrite (Z.mod_small (w1 / 256))
        by (split; [apply Z.div_pos | apply Z.div_lt_upper_bound]; lia).
      apply Z.div_mod. lia.
    + rewrite (Z.mod_small (w2 / 256))
        by (split; [apply Z.div_pos | apply Z.div_lt_upper_bound]; lia).
      apply Z.div_mod. lia.
Qed.

Lemma serial_number_four_bytes_witness :
  read_words Bench.primitive [0x18; 0x19] tt = (OK [0x1234; 0xABCD], tt)
  /\ exists b0 b1 b2 b3,
       run Bench.primitive get_controller_serial_number tt
       = (OK [b0; b1; b2; b3], tt)
       /\ Forall (fun b => 0 <= b < 256) [b0; b1; b2; b3]
       /\ (Forall is_word16 [0x1234; 0xABCD] ->
           [0x1234; 0xABCD] = [256 * b0 + b1; 256 * b2 + b3]).
Proof.
  split; [reflexivity |].
  apply (serial_number_four_bytes Bench.primitive [0x1234; 0xABCD] tt tt).
  reflexivity.
Defined.

(* ================================================================== *)
(** ** The version pairs when a read raises *)

(** X12: a version getter returns no half pair.  If the read of the first
    register raises, the getter raises that exception without reading the
    second register; if the first read succeeds and the second raises, the
    getter raises the second read's exception and the first word is
    dropped. *)
Theorem version_pairs_all_or_nothing
    {St : Type} (h : Handler St) (s s1 s2 : St) (a : Z) (e : Exception) :
  (h 0x14 0 3 false s = (Err e, s1) ->
   run h get_controller_software_version s = (Err e, s1))
  /\ (h 0x14 0 3 false s = (OK a, s1) ->
      h 0x15 0 3 false s1 = (Err e, s2) ->
      run h get_controller_software_version s = (Err e, s2))
  /\ (h 0x16 0 3 false s = (Err e, s1) ->
      run h get_controller_hardware_version s = (Err e, s1))
  /\ (h 0x16 0 3 false s = (OK a, s1) ->
      h 0x17 0 3 false s1 = (Err e, s2) ->
      run h get_controller_hardware_version s = (Err e, s2)).
Proof.
  unfold get_controller_software_version, get_controller_hardware_version.
  split; [| split; [| split]].
  - intros Ha. rewrite run_bind, run_read, Ha. reflexivity.
  - intros Ha Hb.
    rewrite run_bind, run_read, Ha, run_bind, run_read, Hb. reflexivity.
  - intros Ha. rewrite run_bind, run_read, Ha. reflexivity.
  - intros Ha Hb.
    rewrite run_bind, run_read, Ha, run_bind, run_read, Hb. reflexivity.
Qed.

Lemma version_pairs_all_or_nothing_witness :
  run (Observe.fails_at 0x14 (TransportError Timeout))
      get_controller_software_version 0%nat
  = (Err (TransportError Timeout), 1%nat)
  /\ run (Observe.fails_at 0x15 (FrameError "crc"))
         get_controller_software_version 0%nat
     = (Err (FrameError "crc"), 2%nat)
  /\ run (Observe.fails_at 0x16 (TransportError Timeout))
         get_controller_hardware_version 0%nat
     = (Err (TransportError Timeout), 1%nat)
  /\ run (Observe.fails_at 0x17 (FrameError "crc"))
         get_controller_hardware_version 0%nat
     = (Err (FrameError "crc"), 2%nat).
Proof.
  split; [| split; [| split]].
  - apply (proj1 (version_pairs_all_or_nothing
                    (Observe.fails_at 0x14 (TransportError Timeout))
                    0%nat 1%nat 1%nat 0 (TransportError Timeout))).
    reflexivity.
  - apply (proj1 (proj2 (version_pairs_all_or_nothing
                           (Observe.fails_at 0x15 (FrameError "crc"))
                           0%nat 1%nat 2%nat 0x0001 (FrameError "crc"))));
      reflexivity.
  - apply (proj1 (proj2 (proj2 (version_pairs_all_or_nothing
                    (Observe.fails_at 0x16 (TransportError Timeout))
                    0%nat 1%nat 1%nat 0 (TransportError Timeout))))).
    reflexivity.
  - apply (proj2 (proj2 (proj2 (version_pairs_all_or_nothing
                           (Observe.fails_at 0x17 (FrameError "crc"))
                           0%nat 1%nat 2%nat 0x0004 (FrameError "crc")))));
      reflexivity.
Defined.
